(** * Tarificateur Sectorem: the supplier adapters and the dispatcher of main.py

    A shallow embedding of [scrape_luxior], [scrape_ami3f] and
    [recherche_produit] (main.py), with the parts of Python, httpx and
    BeautifulSoup they rest on, and the properties of the specification
    stated over them. *)

From Stdlib Require Import List NArith ZArith QArith Bool String Ascii Lia.
From Stdlib Require Import DecimalString.
Import ListNotations.

Open Scope N_scope.

(** ** Python strings

    A Python [str] is a sequence of Unicode code points. *)

Definition char := N.
Definition str := list char.

(** A literal of the source file, which is UTF-8: one to four bytes make one
    code point. *)
Fixpoint decode_utf8 (bytes : list N) : str :=
  match bytes with
  | [] => []
  | b0 :: r0 =>
      if b0 <? 192 then b0 :: decode_utf8 r0
      else match r0 with
      | [] => [b0]
      | b1 :: r1 =>
          if b0 <? 224 then ((b0 - 192) * 64 + (b1 - 128)) :: decode_utf8 r1
          else match r1 with
          | [] => [b0; b1]
          | b2 :: r2 =>
              if b0 <? 240
              then ((b0 - 224) * 4096 + (b1 - 128) * 64 + (b2 - 128)) :: decode_utf8 r2
              else match r2 with
              | [] => [b0; b1; b2]
              | b3 :: r3 =>
                  ((b0 - 240) * 262144 + (b1 - 128) * 4096 + (b2 - 128) * 64 + (b3 - 128))
                    :: decode_utf8 r3
              end
          end
      end
  end.

Definition lit (s : string) : str :=
  decode_utf8 (map N_of_ascii (list_ascii_of_string s)).

Fixpoint str_eqb (s t : str) : bool :=
  match s, t with
  | [], [] => true
  | c :: s', d :: t' => (c =? d) && str_eqb s' t'
  | _, _ => false
  end.

(** [bool(s)]: a string is true when it is not empty. *)
Definition truthy (s : str) : bool :=
  match s with [] => false | _ :: _ => true end.

(** [c.isspace()]: the code points Python counts as whitespace
    (bidirectional type WS, B or S, or category Zs). *)
Definition isspace (c : char) : bool :=
  ((9 <=? c) && (c <=? 13)) || ((28 <=? c) && (c <=? 32))
  || (c =? 133) || (c =? 160) || (c =? 5760)
  || ((8192 <=? c) && (c <=? 8202))
  || (c =? 8232) || (c =? 8233) || (c =? 8239) || (c =? 8287) || (c =? 12288).

Fixpoint lstrip (s : str) : str :=
  match s with
  | [] => []
  | c :: r => if isspace c then lstrip r else s
  end.

Definition rstrip (s : str) : str := rev (lstrip (rev s)).

(** [s.strip()] *)
Definition strip (s : str) : str := rstrip (lstrip s).

(** The decimal digits of Unicode 14.0 (general category Nd), which is what
    [\d] matches in a [str] pattern and what [float] reads as digits: each
    entry is the code point of a zero and the length of the run that starts
    there; the digit's value is its offset in the run modulo ten. *)
Definition Nd_runs : list (N * N) :=
  [ (48, 10); (1632, 10); (1776, 10); (1984, 10); (2406, 10); (2534, 10);
    (2662, 10); (2790, 10); (2918, 10); (3046, 10); (3174, 10); (3302, 10);
    (3430, 10); (3558, 10); (3664, 10); (3792, 10); (3872, 10); (4160, 10);
    (4240, 10); (6112, 10); (6160, 10); (6470, 10); (6608, 10); (6784, 10);
    (6800, 10); (6992, 10); (7088, 10); (7232, 10); (7248, 10); (42528, 10);
    (43216, 10); (43264, 10); (43472, 10); (43504, 10); (43600, 10);
    (44016, 10); (65296, 10); (66720, 10); (68912, 10); (69734, 10);
    (69872, 10); (69942, 10); (70096, 10); (70384, 10); (70736, 10);
    (70864, 10); (71248, 10); (71360, 10); (71472, 10); (71904, 10);
    (72016, 10); (72784, 10); (73040, 10); (73120, 10); (92768, 10);
    (92864, 10); (93008, 10); (120782, 50); (123200, 10); (123632, 10);
    (125264, 10); (130032, 10) ].

Definition in_run (c : char) (run : N * N) : bool :=
  (fst run <=? c) && (c <? fst run + snd run).

(** The value of a decimal digit, [None] for any other character. *)
Definition decimal (c : char) : option N :=
  match List.find (in_run c) Nd_runs with
  | Some run => Some ((c - fst run) mod 10)
  | None => None
  end.

Definition isdecimal (c : char) : bool :=
  match decimal c with Some _ => true | None => false end.

Definition comma : char := 44.
Definition period : char := 46.
Definition newline : char := 10.

(** [re.sub(r'[^\d,.]', '', s)]: every character outside the class
    [\d , .] is replaced by nothing. *)
Definition price_char (c : char) : bool :=
  isdecimal c || (c =? comma) || (c =? period).

Definition re_sub_non_price (s : str) : str := filter price_char s.

(** [s.replace(',', '.')] *)
Definition replace_comma (s : str) : str :=
  map (fun c => if c =? comma then period else c) s.

(** [re.sub(r'[^\d,.]', '', prix_text).replace(',', '.')] *)
Definition prix_clean (prix_text : str) : str :=
  replace_comma (re_sub_non_price prix_text).

(** ** [float]

    [float(s)] for the strings [prix_clean] produces, which hold decimal
    digits and periods only: it accepts digits with at most one period among
    them and at least one digit, and raises [ValueError] ([None]) otherwise.
    The result is given as the rational the numeral denotes; Python keeps the
    binary64 number nearest to it ([inf] beyond the range of binary64). *)

Fixpoint digits_value (acc : N) (s : str) : option N :=
  match s with
  | [] => Some acc
  | c :: r =>
      match decimal c with
      | Some d => digits_value (10 * acc + d) r
      | None => None
      end
  end.

Fixpoint split_period (s : str) : str * option str :=
  match s with
  | [] => ([], None)
  | c :: r =>
      if c =? period then ([], Some r)
      else let (a, b) := split_period r in (c :: a, b)
  end.

Definition py_float (s : str) : option Q :=
  let (int_part, rest) := split_period s in
  let frac_part := match rest with Some f => f | None => [] end in
  if (List.length int_part + List.length frac_part =? 0)%nat then None
  else
    match digits_value 0 (int_part ++ frac_part) with
    | Some m => Some (Qmake (Z.of_N m) (Z.to_pos (10 ^ Z.of_nat (List.length frac_part))))
    | None => None
    end.

(** [f"{n}"] for an [int]. *)
Definition str_of_int (n : Z) : str :=
  lit (NilZero.string_of_int (Z.to_int n)).

(** ** Patterns

    [pattern.search(s)] for the three compiled patterns of the source, which
    are made of literal words, [.*] and [|]. *)

Fixpoint startswith (p s : str) : bool :=
  match p, s with
  | [], _ => true
  | a :: p', c :: s' => (a =? c) && startswith p' s'
  | _ :: _, [] => false
  end.

(** A literal word is found when some suffix of the subject starts with it. *)
Fixpoint search_word (p s : str) : bool :=
  startswith p s
  || match s with [] => false | _ :: r => search_word p r end.

(** What [.*] can run over: [.] matches every character but the newline. *)
Fixpoint line_of (s : str) : str :=
  match s with
  | [] => []
  | c :: r => if c =? newline then [] else c :: line_of r
  end.

(** The pattern [a.*b] for two literal words. *)
Fixpoint search_dotstar (a b s : str) : bool :=
  (startswith a s && search_word b (line_of (skipn (List.length a) s)))
  || match s with [] => false | _ :: r => search_dotstar a b r end.

(** [re.compile('product.*title|name')] *)
Definition re_product_title_or_name (s : str) : bool :=
  search_dotstar (lit "product") (lit "title") s || search_word (lit "name") s.

(** [re.compile('price')] *)
Definition re_price (s : str) : bool := search_word (lit "price") s.

(** [re.compile('stock|availability')] *)
Definition re_stock_or_availability (s : str) : bool :=
  search_word (lit "stock") s || search_word (lit "availability") s.

(** ** The parsed document (BeautifulSoup)

    A tag carries its name, its [class] attribute (absent, or the list of the
    whitespace-separated values: BeautifulSoup splits this attribute) and its
    contents; no other attribute is read by the adapters. The document itself
    is a tag, named [[document]]. *)

#[local] Set Warnings "-register-all".
Inductive PageElement : Type :=
| Tag (name : str) (class_ : option (list str)) (contents : list PageElement)
| NavigableString (s : str)
| Comment (s : str).

(** [element.descendants]: every element below this one, in document order. *)
Fixpoint descendants (e : PageElement) : list PageElement :=
  match e with
  | Tag _ _ contents => flat_map (fun c => c :: descendants c) contents
  | NavigableString _ => []
  | Comment _ => []
  end.

(** [element.text]: the strings below the element, joined; comments are no
    part of it. *)
Definition get_text (e : PageElement) : str :=
  List.concat (map (fun d => match d with NavigableString s => s | _ => [] end)
              (descendants e)).

(** The [class_] argument of [find]: a string or a compiled pattern. *)
Inductive class_filter : Type :=
| class_str (s : str)
| class_re (search : str -> bool).

Definition match_against (f : class_filter) (value : str) : bool :=
  match f with
  | class_str s => str_eqb value s
  | class_re search => search value
  end.

(** [' '.join(values)] *)
Fixpoint join_space (values : list str) : str :=
  match values with
  | [] => []
  | [v] => v
  | v :: rest => v ++ 32 :: join_space rest
  end.

(** A multi-valued attribute matches when one of its values does, or else
    when the values joined by spaces do; a tag with no [class] attribute
    matches neither a string nor a pattern. *)
Definition class_matches (f : class_filter) (class_ : option (list str)) : bool :=
  match class_ with
  | None => false
  | Some values =>
      existsb (match_against f) values || match_against f (join_space values)
  end.

Definition tag_matches (names : list str) (f : class_filter) (e : PageElement) : bool :=
  match e with
  | Tag name class_ _ => existsb (str_eqb name) names && class_matches f class_
  | _ => false
  end.

(** [element.find(names, class_=f)]: the first descendant, in document order,
    that is a tag with one of the names and a matching class; [None] where
    there is none. *)
Definition find (names : list str) (f : class_filter) (e : PageElement)
  : option PageElement :=
  List.find (tag_matches names f) (descendants e).

(** ** Exceptions and results *)

(** The exceptions the adapters tell apart: [httpx.TimeoutException], any
    other subclass of [Exception], and what is a [BaseException] without
    being an [Exception] ([asyncio.CancelledError], [KeyboardInterrupt]).
    Each carries [str(e)]. *)
Inductive exception : Type :=
| TimeoutException (msg : str)
| OtherException (msg : str)
| BaseExceptionOnly (msg : str).

Definition is_Exception (e : exception) : bool :=
  match e with BaseExceptionOnly _ => false | _ => true end.

Inductive result (A : Type) : Type :=
| Return (a : A)
| Raise (e : exception).
Arguments Return {A} a.
Arguments Raise {A} e.

Definition bind {A B : Type} (r : result A) (k : A -> result B) : result B :=
  match r with
  | Return a => k a
  | Raise e => Raise e
  end.

Notation "x <- e ;; k" := (bind e (fun x => k))
  (at level 61, e at next level, right associativity).

(** ** The records of main.py *)

Record ProduitRequest : Type := {
  produit_reference : str;
  produit_fournisseur : str
}.

Record ProduitResponse : Type := {
  reference : str;
  fournisseur : str;
  prix : option Q;
  designation : option str;
  disponibilite : option str;
  erreur : option str
}.

(** [httpx.Response], as far as the adapters read it. *)
Record Response : Type := {
  status_code : Z;
  text : str
}.

(** Lines 96-103 and 170-176: the price is parsed from a non-empty price
    text, and a [ValueError] of [float] leaves it at [None]. *)
Definition prix_of_text (prix_text : option str) : option Q :=
  match prix_text with
  | Some t => if truthy t then py_float (prix_clean t) else None
  | None => None
  end.

(** The search URLs: the reference is put into the f-string as it is. *)
Definition luxior_search_url (reference : str) : str :=
  lit "https://www.luxior.fr/catalogsearch/result/?q=" ++ reference.

Definition ami3f_search_url (reference : str) : str :=
  lit "https://www.ami3f.com/recherche?q=" ++ reference.

(** ** The adapters

    What lies outside the program is taken as given: [client_get url] is the
    outcome of [await client.get(url)] on a client with a 30 second timeout
    that follows redirects, and [BeautifulSoup markup] that of
    [BeautifulSoup(markup, 'html.parser')]; either returns or raises. *)

Section Adapters.

Variable client_get : str -> result Response.
Variable BeautifulSoup : str -> result PageElement.

(** The body of the [try] of [scrape_luxior]. *)
Definition luxior_try (reference : str) : result ProduitResponse :=
  response <- client_get (luxior_search_url reference) ;;
  if negb (status_code response =? 200)%Z then
    Return {| reference := reference; fournisseur := lit "luxior";
              prix := None; designation := None; disponibilite := None;
              erreur := Some (lit "Erreur HTTP " ++ str_of_int (status_code response)) |}
  else
    soup <- BeautifulSoup (text response) ;;
    match find [lit "div"] (class_str (lit "product-item-info")) soup with
    | None =>
        Return {| reference := reference; fournisseur := lit "luxior";
                  prix := None; designation := None; disponibilite := None;
                  erreur := Some (lit "Produit non trouvé") |}
    | Some product_item =>
        let name_element :=
          find [lit "a"] (class_str (lit "product-item-link")) product_item in
        let designation :=
          match name_element with
          | Some e => strip (get_text e)
          | None => lit "N/A"
          end in
        let price_element :=
          find [lit "span"] (class_str (lit "price")) product_item in
        let prix_text :=
          match price_element with
          | Some e => Some (strip (get_text e))
          | None => None
          end in
        let prix := prix_of_text prix_text in
        let stock_element :=
          find [lit "div"] (class_str (lit "stock")) product_item in
        let disponibilite :=
          match stock_element with
          | Some e => strip (get_text e)
          | None => lit "À vérifier"
          end in
        Return {| reference := reference; fournisseur := lit "luxior";
                  prix := prix; designation := Some designation;
                  disponibilite := Some disponibilite; erreur := None |}
    end.

(** [scrape_luxior]: the [try] with its two handlers; an exception that is
    no [Exception] passes through both. *)
Definition scrape_luxior (reference : str) : result ProduitResponse :=
  match luxior_try reference with
  | Return r => Return r
  | Raise (TimeoutException _) =>
      Return {| reference := reference; fournisseur := lit "luxior";
                prix := None; designation := None; disponibilite := None;
                erreur := Some (lit "Timeout - Le serveur Luxior ne répond pas") |}
  | Raise (OtherException msg) =>
      Return {| reference := reference; fournisseur := lit "luxior";
                prix := None; designation := None; disponibilite := None;
                erreur := Some (lit "Erreur: " ++ msg) |}
  | Raise (BaseExceptionOnly msg) => Raise (BaseExceptionOnly msg)
  end.

(** Lines 149-153: the product card, and the other structure when there is
    none. *)
Definition ami3f_product_card (soup : PageElement) : option PageElement :=
  match find [lit "div"] (class_str (lit "product-card")) soup with
  | Some product_card => Some product_card
  | None => find [lit "article"] (class_str (lit "product")) soup
  end.

(** The body of the [try] of [scrape_ami3f]. *)
Definition ami3f_try (reference : str) : result ProduitResponse :=
  response <- client_get (ami3f_search_url reference) ;;
  if negb (status_code response =? 200)%Z then
    Return {| reference := reference; fournisseur := lit "ami3f";
              prix := None; designation := None; disponibilite := None;
              erreur := Some (lit "Erreur HTTP " ++ str_of_int (status_code response)) |}
  else
    soup <- BeautifulSoup (text response) ;;
    match ami3f_product_card soup with
    | None =>
        Return {| reference := reference; fournisseur := lit "ami3f";
                  prix := None; designation := None; disponibilite := None;
                  erreur := Some (lit "Produit non trouvé") |}
    | Some product_card =>
        let name_element :=
          find [lit "h2"; lit "h3"; lit "a"]
               (class_re re_product_title_or_name) product_card in
        let designation :=
          match name_element with
          | Some e => strip (get_text e)
          | None => lit "N/A"
          end in
        let price_element :=
          find [lit "span"; lit "div"] (class_re re_price) product_card in
        let prix_text :=
          match price_element with
          | Some e => Some (strip (get_text e))
          | None => None
          end in
        let prix := prix_of_text prix_text in
        let stock_element :=
          find [lit "span"; lit "div"]
               (class_re re_stock_or_availability) product_card in
        let disponibilite :=
          match stock_element with
          | Some e => strip (get_text e)
          | None => lit "À vérifier"
          end in
        Return {| reference := reference; fournisseur := lit "ami3f";
                  prix := prix; designation := Some designation;
                  disponibilite := Some disponibilite; erreur := None |}
    end.

(** [scrape_ami3f] *)
Definition scrape_ami3f (reference : str) : result ProduitResponse :=
  match ami3f_try reference with
  | Return r => Return r
  | Raise (TimeoutException _) =>
      Return {| reference := reference; fournisseur := lit "ami3f";
                prix := None; designation := None; disponibilite := None;
                erreur := Some (lit "Timeout - Le serveur AMI 3F ne répond pas") |}
  | Raise (OtherException msg) =>
      Return {| reference := reference; fournisseur := lit "ami3f";
                prix := None; designation := None; disponibilite := None;
                erreur := Some (lit "Erreur: " ++ msg) |}
  | Raise (BaseExceptionOnly msg) => Raise (BaseExceptionOnly msg)
  end.

(** ** The dispatcher *)

(** [s.lower()]: on a string of ASCII characters it maps [A-Z] to [a-z]; on
    any other string it is what the Unicode character database says, taken
    here as [unicode_lower]. *)
Variable unicode_lower : str -> str.

Definition ascii_lower (c : char) : char :=
  if (65 <=? c) && (c <=? 90) then c + 32 else c.

Definition lower (s : str) : str :=
  if forallb (fun c => c <? 128) s then map ascii_lower s else unicode_lower s.

(** What the endpoint gives the framework: the record to serialize, an
    [HTTPException] it raised itself, or an exception of the adapter. *)
Inductive reply : Type :=
| Serialized (r : ProduitResponse)
| HTTPException (status_code : Z) (detail : str)
| Propagated (e : exception).

Definition awaited (r : result ProduitResponse) : reply :=
  match r with
  | Return p => Serialized p
  | Raise e => Propagated e
  end.

(** [recherche_produit] *)
Definition recherche_produit (produit : ProduitRequest) : reply :=
  if negb (truthy (produit_reference produit))
     || negb (truthy (strip (produit_reference produit)))
  then HTTPException 400 (lit "La référence est obligatoire")
  else
    let fournisseur := lower (produit_fournisseur produit) in
    if str_eqb fournisseur (lit "luxior") then
      awaited (scrape_luxior (produit_reference produit))
    else if str_eqb fournisseur (lit "ami3f") then
      awaited (scrape_ami3f (produit_reference produit))
    else
      HTTPException 400
        (lit "Fournisseur non supporté. Utilisez 'luxior' ou 'ami3f'").

End Adapters.

Arguments lit : simpl never.
Arguments str_of_int : simpl never.

(** ** Notions of the specification *)

(** A reference that is empty or holds whitespace only. *)
Definition blank (s : str) : bool := forallb isspace s.

(** The two ways the outside can fail an adapter that asked for [url]: the
    request raises, or the request succeeds with status 200 and the parser
    raises on its body. *)
Definition upstream_raises (client_get : str -> result Response)
    (BeautifulSoup : str -> result PageElement) (url : str) (e : exception) : Prop :=
  client_get url = Raise e
  \/ exists response, client_get url = Return response
       /\ status_code response = 200%Z
       /\ BeautifulSoup (text response) = Raise e.

(** A record that carries nothing but an error. *)
Definition error_record (reference fournisseur message : str) : ProduitResponse :=
  {| reference := reference; fournisseur := fournisseur;
     prix := None; designation := None; disponibilite := None;
     erreur := Some message |}.

(** The stripped text of an element that was found, a default otherwise. *)
Definition text_or (e : option PageElement) (default : str) : str :=
  match e with
  | Some e => strip (get_text e)
  | None => default
  end.

(** An error excludes the three payload fields. *)
Definition payload_exclusive (r : ProduitResponse) : Prop :=
  match erreur r with
  | Some _ => prix r = None /\ designation r = None /\ disponibilite r = None
  | None => True
  end.

(** A record the body of a [try] returns is an error record, or a record
    with a designation, an availability and no error. *)
Definition adapter_record (ref supplier : str) (r : ProduitResponse) : Prop :=
  (exists message, r = error_record ref supplier message)
  \/ (exists p d a,
        r = {| reference := ref; fournisseur := supplier; prix := p;
               designation := Some d; disponibilite := Some a;
               erreur := None |}).






(** The class test of the specification: a class matches when, in any letter
    case, it contains "title" or "name". *)
Definition spec_class_test (value : str) : bool :=
  search_word (lit "title") (map ascii_lower value)
  || search_word (lit "name") (map ascii_lower value).

(** The designation of the specification: the text of the first element of
    the container with one of the names and a class that passes the test,
    "N/A" when there is none. *)
Definition spec_designation (names : list str) (container : PageElement) : str :=
  text_or (find names (class_re spec_class_test) container) (lit "N/A").

(** ** Sample pages and upstream behaviours *)

Definition document (contents : list PageElement) : PageElement :=
  Tag (lit "[document]") None contents.

Definition element (name class_ content : string) : PageElement :=
  Tag (lit name) (Some [lit class_]) [NavigableString (lit content)].

(** [<div class="product-item-info">] with a link, a price and a stock. *)
Definition luxior_page (link_class price : string) : PageElement :=
  document
    [Tag (lit "div") (Some [lit "product-item-info"])
       [element "a" link_class " Widget ";
        element "span" "price" price;
        element "div" "stock" "En stock"]].

(** [<div class="product-card">] with a heading and a price. *)
Definition ami3f_page (heading_class price : string) : PageElement :=
  document
    [Tag (lit "div") (Some [lit "product-card"])
       [element "h2" heading_class " Widget ";
        element "span" "price" price]].

(** A page where an [<article class="product">] comes before the
    [<div class="product-card">]. *)
Definition ami3f_page_both : PageElement :=
  document
    [Tag (lit "article") (Some [lit "product"]) [element "a" "name" "Article"];
     Tag (lit "div") (Some [lit "product-card"]) [element "a" "name" "Card"]].

Definition responds (status : Z) (body : str) : str -> result Response :=
  fun _ => Return {| status_code := status; text := body |}.

Definition times_out : str -> result Response :=
  fun _ => Raise (TimeoutException (lit "timed out")).

Definition fails_with (msg : string) : str -> result Response :=
  fun _ => Raise (OtherException (lit msg)).

Definition parses_to (doc : PageElement) : str -> result PageElement :=
  fun _ => Return doc.

(** A stand-in for the lowering of strings that are not ASCII. *)
Definition sample_lower : str -> str := fun s => s.

(** ** The test endpoints *)

Section TestEndpoints.

Variable client_get : str -> result Response.
Variable BeautifulSoup : str -> result PageElement.

(** [test_luxior]: the adapter is awaited on the path parameter as it comes. *)
Definition test_luxior (reference : str) : reply :=
  awaited (scrape_luxior client_get BeautifulSoup reference).

(** [test_ami3f] *)
Definition test_ami3f (reference : str) : reply :=
  awaited (scrape_ami3f client_get BeautifulSoup reference).

End TestEndpoints.

(** ** The configuration and the health report *)

(** [os.getenv(key, default)] in an environment that gives some variables a
    value. *)
Definition getenv (environ : str -> option str) (key default : str) : str :=
  match environ key with
  | Some value => value
  | None => default
  end.

(** Lines 22-24: the three values read when the module is loaded. *)
Record Configuration : Type := {
  LUXIOR_ID : str;
  AMI3F_ID : str;
  ODOO_API_KEY : str
}.

Definition configuration (environ : str -> option str) : Configuration :=
  {| LUXIOR_ID := getenv environ (lit "LUXIOR_ID") (lit "443402");
     AMI3F_ID := getenv environ (lit "AMI3F_ID") (lit "9133");
     ODOO_API_KEY := getenv environ (lit "ODOO_API_KEY") [] |}.

(** The object [health_check] returns. *)
Record Health : Type := {
  health_status : str;
  luxior_configured : bool;
  ami3f_configured : bool;
  odoo_configured : bool
}.

(** [health_check] *)
Definition health_check (c : Configuration) : Health :=
  {| health_status := lit "ok";
     luxior_configured := truthy (LUXIOR_ID c);
     ami3f_configured := truthy (AMI3F_ID c);
     odoo_configured := truthy (ODOO_API_KEY c) |}.

(** ** Further notions *)

Definition separator (c : char) : bool := (c =? comma) || (c =? period).

(** How many commas and periods a price text holds. *)
Definition separators (s : str) : nat := List.length (filter separator s).

(** How many periods a string holds. *)
Definition periods (s : str) : nat := List.length (filter (N.eqb period) s).

(** A string with no whitespace at either end. *)
Definition stripped (s : str) : Prop := strip s = s.

(** A pattern that, found in a string, is found in every string around it. *)
Definition found_in_context (search : str -> bool) : Prop :=
  forall before value after,
    search value = true -> search (before ++ value ++ after) = true.

(** An environment where only [ODOO_API_KEY] is set, to the empty string. *)
Definition sample_environ : str -> option str :=
  fun key => if str_eqb key (lit "ODOO_API_KEY") then Some [] else None.

(** A request that is cancelled. *)
Definition cancelled : str -> result Response :=
  fun _ => Raise (BaseExceptionOnly (lit "CancelledError")).

(** A page whose product has a link and a stock with nothing but spaces. *)
Definition luxior_page_blank : PageElement :=
  document
    [Tag (lit "div") (Some [lit "product-item-info"])
       [element "a" "product-item-link" "   ";
        element "div" "stock" " "]].

(** * Properties *)

(** ** Strings *)

Lemma str_eqb_eq (s t : str) : str_eqb s t = true <-> s = t.
Proof.
  revert t; induction s as [|c s IH]; intros [|d t]; simpl; split;
    try congruence; try reflexivity.
  - intros H. apply andb_true_iff in H as [Hc Hs].
    apply N.eqb_eq in Hc. apply IH in Hs. congruence.
  - intros H. injection H as -> ->. rewrite N.eqb_refl. simpl. now apply IH.
Qed.

Lemma str_eqb_neq (s t : str) : str_eqb s t = false <-> s <> t.
Proof.
  split.
  - intros H E. apply str_eqb_eq in E. congruence.
  - intros H. destruct (str_eqb s t) eqn:E; [|reflexivity].
    apply str_eqb_eq in E. contradiction.
Qed.

Lemma lstrip_blank (s : str) : lstrip s = [] <-> blank s = true.
Proof.
  unfold blank. induction s as [|c s IH]; simpl.
  - tauto.
  - destruct (isspace c); simpl; [exact IH|]. split; discriminate.
Qed.

Lemma blank_lstrip (s : str) : blank (lstrip s) = blank s.
Proof.
  unfold blank. induction s as [|c s IH]; simpl; [reflexivity|].
  destruct (isspace c) eqn:E; simpl; [exact IH|]. now rewrite E.
Qed.

Lemma blank_rev (s : str) : blank (rev s) = blank s.
Proof.
  unfold blank. induction s as [|c s IH]; simpl; [reflexivity|].
  rewrite forallb_app, IH. simpl. rewrite andb_true_r. apply andb_comm.
Qed.

(** [strip] leaves nothing exactly of the strings that hold whitespace only. *)
Lemma strip_blank (s : str) : strip s = [] <-> blank s = true.
Proof.
  unfold strip, rstrip. split.
  - intros H. apply (f_equal (@rev char)) in H. rewrite rev_involutive in H.
    simpl in H. apply lstrip_blank in H. rewrite blank_rev, blank_lstrip in H.
    exact H.
  - intros H. rewrite <- blank_lstrip, <- blank_rev in H.
    apply lstrip_blank in H. now rewrite H.
Qed.

(** ** Patterns *)

Lemma startswith_app (p s : str) :
  startswith p s = true <-> exists b, s = p ++ b.
Proof.
  revert s; induction p as [|a p IH]; intros s; simpl.
  - split; [intros _; now exists s | reflexivity].
  - destruct s as [|c s].
    + split; [discriminate | intros [b Hb]; discriminate].
    + rewrite andb_true_iff, N.eqb_eq, IH. split.
      * intros [-> [b ->]]. now exists b.
      * intros [b Hb]. injection Hb as -> ->. split; [reflexivity | now exists b].
Qed.

(** A word is found exactly in the subjects that contain it. *)
Lemma search_word_spec (p s : str) :
  search_word p s = true <-> exists a b, s = a ++ p ++ b.
Proof.
  induction s as [|c s IH].
  - simpl. rewrite orb_false_r, startswith_app. split.
    + intros [b Hb]. now exists [], b.
    + intros [a [b Hb]]. destruct a; [now exists b | discriminate].
  - cbn [search_word]. rewrite orb_true_iff, startswith_app, IH. split.
    + intros [[b Hb] | [a [b Hb]]].
      * now exists [], b.
      * exists (c :: a), b. now rewrite Hb.
    + intros [[|c' a] [b Hb]].
      * left. now exists b.
      * right. injection Hb as -> ->. now exists a, b.
Qed.

Lemma line_of_spec (m r : str) :
  ~ In newline m -> line_of (m ++ r) = m ++ line_of r.
Proof.
  induction m as [|c m IH]; simpl; intros H; [reflexivity|].
  destruct (N.eqb_spec c newline) as [->|_].
  - exfalso. apply H. now left.
  - rewrite IH; [reflexivity|]. intros Hin. apply H. now right.
Qed.

Lemma line_of_prefix (s : str) :
  exists r, s = line_of s ++ r /\ ~ In newline (line_of s).
Proof.
  induction s as [|c s [r [Hr Hn]]]; simpl.
  - exists []. split; [reflexivity | intros []].
  - destruct (N.eqb_spec c newline) as [->|Hc].
    + exists (newline :: s). split; [reflexivity | intros []].
    + exists r. split; [simpl; now f_equal|]. intros [E|Hin]; [congruence | tauto].
Qed.

Lemma skipn_length_app (a b : str) : skipn (List.length a) (a ++ b) = b.
Proof. induction a; simpl; auto. Qed.

(** [a.*b] is found exactly in the subjects where [a] comes before [b] with
    no newline between them. *)
Lemma search_dotstar_spec (a b s : str) :
  ~ In newline b ->
  search_dotstar a b s = true
  <-> exists x m y, s = x ++ a ++ m ++ b ++ y /\ ~ In newline m.
Proof.
  intros Hb.
  assert (Hhead : forall t,
    startswith a t && search_word b (line_of (skipn (List.length a) t)) = true
    <-> exists m y, t = a ++ m ++ b ++ y /\ ~ In newline m).
  { intros t. rewrite andb_true_iff, startswith_app, search_word_spec. split.
    - intros [[r ->] [m [y Hm]]]. rewrite skipn_length_app in Hm.
      destruct (line_of_prefix r) as [r' [Hr Hn]].
      exists m, (y ++ r'). split.
      + rewrite Hr at 1. rewrite Hm. now rewrite <- !app_assoc.
      + intros Hin. apply Hn. rewrite Hm. apply in_or_app. now left.
    - intros [m [y [-> Hn]]]. split; [now exists (m ++ b ++ y)|].
      rewrite skipn_length_app. exists m, (line_of y).
      rewrite line_of_spec by exact Hn.
      rewrite line_of_spec by exact Hb. reflexivity. }
  induction s as [|c s IH].
  - cbn [search_dotstar]. rewrite orb_false_r, Hhead. split.
    + intros [m [y [H Hn]]]. now exists [], m, y.
    + intros [x [m [y [H Hn]]]]. destruct x; [now exists m, y | discriminate].
  - cbn [search_dotstar]. rewrite orb_true_iff, Hhead, IH. split.
    + intros [[m [y [H Hn]]] | [x [m [y [H Hn]]]]].
      * now exists [], m, y.
      * exists (c :: x), m, y. split; [now rewrite H | exact Hn].
    + intros [[|c' x] [m [y [H Hn]]]].
      * left. now exists m, y.
      * right. injection H as -> ->. now exists x, m, y.
Qed.

(** ** The document *)

Lemma find_none_iff (names : list str) (f : class_filter) (e : PageElement) :
  find names f e = None
  <-> forall d, In d (descendants e) -> tag_matches names f d = false.
Proof.
  unfold find. split.
  - intros H d Hd. exact (find_none _ _ H d Hd).
  - intros H. induction (descendants e) as [|x l IH]; simpl; [reflexivity|].
    rewrite (H x) by now left. apply IH. intros d Hd. apply H. now right.
Qed.

(** [find] gives the first match in document order. *)
Lemma find_first (names : list str) (f : class_filter) (e d : PageElement) :
  find names f e = Some d
  <-> exists before after,
        descendants e = before ++ d :: after
        /\ tag_matches names f d = true
        /\ forall x, In x before -> tag_matches names f x = false.
Proof.
  unfold find. generalize (descendants e) as l.
  induction l as [|x l IH]; simpl.
  - split; [discriminate | intros [[|b bs] [a [H _]]]; discriminate].
  - destruct (tag_matches names f x) eqn:Hx.
    + split.
      * intros H. injection H as <-. exists [], l. simpl.
        repeat split; auto. intros y [].
      * intros [[|b bs] [a [H [Hd Hb]]]]; simpl in H.
        -- now injection H as ->.
        -- injection H as -> _. rewrite (Hb b) in Hx by now left. discriminate.
    + rewrite IH. split.
      * intros [bs [a [H [Hd Hb]]]]. exists (x :: bs), a. simpl. rewrite H.
        repeat split; auto. intros y [<-|Hy]; auto.
      * intros [[|b bs] [a [H [Hd Hb]]]]; simpl in H.
        -- injection H as -> _. congruence.
        -- injection H as -> ->. exists bs, a. repeat split; auto.
           intros y Hy. apply Hb. now right.
Qed.

(** ** The paths of the adapters *)

Section Paths.

Variable client_get : str -> result Response.
Variable BeautifulSoup : str -> result PageElement.

Lemma luxior_request_raises (ref : str) (e : exception) :
  client_get (luxior_search_url ref) = Raise e ->
  luxior_try client_get BeautifulSoup ref = Raise e.
Proof. intros H. unfold luxior_try. now rewrite H. Qed.

Lemma ami3f_request_raises (ref : str) (e : exception) :
  client_get (ami3f_search_url ref) = Raise e ->
  ami3f_try client_get BeautifulSoup ref = Raise e.
Proof. intros H. unfold ami3f_try. now rewrite H. Qed.

Lemma luxior_parser_raises (ref : str) (response : Response) (e : exception) :
  client_get (luxior_search_url ref) = Return response ->
  status_code response = 200%Z ->
  BeautifulSoup (text response) = Raise e ->
  luxior_try client_get BeautifulSoup ref = Raise e.
Proof.
  intros Hg Hs Hp. unfold luxior_try. rewrite Hg. cbn [bind].
  rewrite Hs. cbn [Z.eqb Pos.eqb negb]. now rewrite Hp.
Qed.

Lemma ami3f_parser_raises (ref : str) (response : Response) (e : exception) :
  client_get (ami3f_search_url ref) = Return response ->
  status_code response = 200%Z ->
  BeautifulSoup (text response) = Raise e ->
  ami3f_try client_get BeautifulSoup ref = Raise e.
Proof.
  intros Hg Hs Hp. unfold ami3f_try. rewrite Hg. cbn [bind].
  rewrite Hs. cbn [Z.eqb Pos.eqb negb]. now rewrite Hp.
Qed.

Lemma luxior_http_error (ref : str) (response : Response) :
  client_get (luxior_search_url ref) = Return response ->
  status_code response <> 200%Z ->
  luxior_try client_get BeautifulSoup ref
  = Return (error_record ref (lit "luxior")
              (lit "Erreur HTTP " ++ str_of_int (status_code response))).
Proof.
  intros Hg Hs. unfold luxior_try. rewrite Hg. cbn [bind].
  destruct (Z.eqb_spec (status_code response) 200); [contradiction|].
  reflexivity.
Qed.

Lemma ami3f_http_error (ref : str) (response : Response) :
  client_get (ami3f_search_url ref) = Return response ->
  status_code response <> 200%Z ->
  ami3f_try client_get BeautifulSoup ref
  = Return (error_record ref (lit "ami3f")
              (lit "Erreur HTTP " ++ str_of_int (status_code response))).
Proof.
  intros Hg Hs. unfold ami3f_try. rewrite Hg. cbn [bind].
  destruct (Z.eqb_spec (status_code response) 200); [contradiction|].
  reflexivity.
Qed.

(** What [scrape_luxior] returns for a parsed page of a 200 response. *)
Lemma luxior_parsed (ref : str) (response : Response) (soup : PageElement) :
  client_get (luxior_search_url ref) = Return response ->
  status_code response = 200%Z ->
  BeautifulSoup (text response) = Return soup ->
  luxior_try client_get BeautifulSoup ref
  = match find [lit "div"] (class_str (lit "product-item-info")) soup with
    | None => Return (error_record ref (lit "luxior") (lit "Produit non trouvé"))
    | Some item =>
        Return
          {| reference := ref; fournisseur := lit "luxior";
             prix := prix_of_text
                       (option_map (fun e => strip (get_text e))
                          (find [lit "span"] (class_str (lit "price")) item));
             designation :=
               Some (text_or (find [lit "a"] (class_str (lit "product-item-link")) item)
                             (lit "N/A"));
             disponibilite :=
               Some (text_or (find [lit "div"] (class_str (lit "stock")) item)
                             (lit "À vérifier"));
             erreur := None |}
    end.
Proof.
  intros Hg Hs Hp. unfold luxior_try. rewrite Hg. cbn [bind].
  rewrite Hs. cbn [Z.eqb Pos.eqb negb]. rewrite Hp. cbn [bind].
  destruct (find [lit "div"] (class_str (lit "product-item-info")) soup) as [item|];
    [|reflexivity].
  unfold text_or.
  destruct (find [lit "span"] (class_str (lit "price")) item); reflexivity.
Qed.

(** What [scrape_ami3f] returns for a parsed page of a 200 response. *)
Lemma ami3f_parsed (ref : str) (response : Response) (soup : PageElement) :
  client_get (ami3f_search_url ref) = Return response ->
  status_code response = 200%Z ->
  BeautifulSoup (text response) = Return soup ->
  ami3f_try client_get BeautifulSoup ref
  = match ami3f_product_card soup with
    | None => Return (error_record ref (lit "ami3f") (lit "Produit non trouvé"))
    | Some card =>
        Return
          {| reference := ref; fournisseur := lit "ami3f";
             prix := prix_of_text
                       (option_map (fun e => strip (get_text e))
                          (find [lit "span"; lit "div"] (class_re re_price) card));
             designation :=
               Some (text_or (find [lit "h2"; lit "h3"; lit "a"]
                                (class_re re_product_title_or_name) card)
                             (lit "N/A"));
             disponibilite :=
               Some (text_or (find [lit "span"; lit "div"]
                                (class_re re_stock_or_availability) card)
                             (lit "À vérifier"));
             erreur := None |}
    end.
Proof.
  intros Hg Hs Hp. unfold ami3f_try. rewrite Hg. cbn [bind].
  rewrite Hs. cbn [Z.eqb Pos.eqb negb]. rewrite Hp. cbn [bind].
  destruct (ami3f_product_card soup) as [card|]; [|reflexivity].
  unfold text_or.
  destruct (find [lit "span"; lit "div"] (class_re re_price) card); reflexivity.
Qed.

(** A record that the body of the [try] returns is what the adapter returns. *)
Lemma scrape_luxior_returns (ref : str) (r : ProduitResponse) :
  luxior_try client_get BeautifulSoup ref = Return r ->
  scrape_luxior client_get BeautifulSoup ref = Return r.
Proof. intros H. unfold scrape_luxior. now rewrite H. Qed.

Lemma scrape_ami3f_returns (ref : str) (r : ProduitResponse) :
  ami3f_try client_get BeautifulSoup ref = Return r ->
  scrape_ami3f client_get BeautifulSoup ref = Return r.
Proof. intros H. unfold scrape_ami3f. now rewrite H. Qed.

(** The body of the [try] raises only what the outside raised. *)
Lemma luxior_try_raises (ref : str) (e : exception) :
  luxior_try client_get BeautifulSoup ref = Raise e
  <-> upstream_raises client_get BeautifulSoup (luxior_search_url ref) e.
Proof.
  unfold upstream_raises. split.
  - intros H. unfold luxior_try in H.
    destruct (client_get (luxior_search_url ref)) as [response|e0] eqn:Hg;
      cbn [bind] in H; [|left; congruence].
    right. exists response. split; [reflexivity|].
    destruct (Z.eqb_spec (status_code response) 200) as [Hs|Hs];
      cbn [negb] in H; [|discriminate].
    split; [exact Hs|].
    destruct (BeautifulSoup (text response)) as [soup|e1]; cbn [bind] in H;
      [|congruence].
    destruct (find [lit "div"] (class_str (lit "product-item-info")) soup);
      discriminate.
  - intros [H | [response [Hg [Hs Hp]]]].
    + now apply luxior_request_raises.
    + now apply (luxior_parser_raises ref response).
Qed.

Lemma ami3f_try_raises (ref : str) (e : exception) :
  ami3f_try client_get BeautifulSoup ref = Raise e
  <-> upstream_raises client_get BeautifulSoup (ami3f_search_url ref) e.
Proof.
  unfold upstream_raises. split.
  - intros H. unfold ami3f_try in H.
    destruct (client_get (ami3f_search_url ref)) as [response|e0] eqn:Hg;
      cbn [bind] in H; [|left; congruence].
    right. exists response. split; [reflexivity|].
    destruct (Z.eqb_spec (status_code response) 200) as [Hs|Hs];
      cbn [negb] in H; [|discriminate].
    split; [exact Hs|].
    destruct (BeautifulSoup (text response)) as [soup|e1]; cbn [bind] in H;
      [|congruence].
    destruct (ami3f_product_card soup); discriminate.
  - intros [H | [response [Hg [Hs Hp]]]].
    + now apply ami3f_request_raises.
    + now apply (ami3f_parser_raises ref response).
Qed.

End Paths.

(** ** Failures of the outside (C1) *)

(** C1, as the specification words it, does not hold: on a timeout of the
    request [scrape_luxior] does not answer "Timeout: the supplier server is
    not responding", and on another exception [scrape_ami3f] does not answer
    "Error: <details>". *)
Lemma failure_messages_counterexample :
  ~ (exists r,
       scrape_luxior times_out (parses_to (document [])) (lit "REF") = Return r
       /\ erreur r = Some (lit "Timeout: the supplier server is not responding"))
  /\ ~ (exists r,
       scrape_ami3f (fails_with "boom") (parses_to (document [])) (lit "REF") = Return r
       /\ erreur r = Some (lit "Error: boom")).
Proof.
  split; intros [r [Hr He]]; vm_compute in Hr; injection Hr as <-;
    vm_compute in He; discriminate He.
Qed.

(** C1, amended: when whatever the outside raises is an [Exception] (a
    timeout, a malformed response, an exception of the parser), both adapters
    return a record for every reference. A [TimeoutException] gives the error
    "Timeout - Le serveur Luxior ne répond pas" in [scrape_luxior] and
    "Timeout - Le serveur AMI 3F ne répond pas" in [scrape_ami3f]; any other
    [Exception] gives "Erreur: " followed by [str(e)]. *)
Theorem adapters_catch_exceptions :
  forall (client_get : str -> result Response)
         (BeautifulSoup : str -> result PageElement) (ref : str),
  (forall url e, upstream_raises client_get BeautifulSoup url e ->
                 is_Exception e = true) ->
  (exists r, scrape_luxior client_get BeautifulSoup ref = Return r)
  /\ (exists r, scrape_ami3f client_get BeautifulSoup ref = Return r)
  /\ (forall msg,
        upstream_raises client_get BeautifulSoup (luxior_search_url ref)
          (TimeoutException msg) ->
        scrape_luxior client_get BeautifulSoup ref
        = Return (error_record ref (lit "luxior")
                    (lit "Timeout - Le serveur Luxior ne répond pas")))
  /\ (forall msg,
        upstream_raises client_get BeautifulSoup (ami3f_search_url ref)
          (TimeoutException msg) ->
        scrape_ami3f client_get BeautifulSoup ref
        = Return (error_record ref (lit "ami3f")
                    (lit "Timeout - Le serveur AMI 3F ne répond pas")))
  /\ (forall msg,
        upstream_raises client_get BeautifulSoup (luxior_search_url ref)
          (OtherException msg) ->
        scrape_luxior client_get BeautifulSoup ref
        = Return (error_record ref (lit "luxior") (lit "Erreur: " ++ msg)))
  /\ (forall msg,
        upstream_raises client_get BeautifulSoup (ami3f_search_url ref)
          (OtherException msg) ->
        scrape_ami3f client_get BeautifulSoup ref
        = Return (error_record ref (lit "ami3f") (lit "Erreur: " ++ msg))).
Proof.
  intros client_get BeautifulSoup ref Hexc.
  split; [|split].
  - unfold scrape_luxior.
    destruct (luxior_try client_get BeautifulSoup ref) as [r|e] eqn:Ht.
    + now exists r.
    + apply luxior_try_raises in Ht. pose proof (Hexc _ _ Ht) as Hc.
      destruct e; simpl in Hc; try discriminate; eexists; reflexivity.
  - unfold scrape_ami3f.
    destruct (ami3f_try client_get BeautifulSoup ref) as [r|e] eqn:Ht.
    + now exists r.
    + apply ami3f_try_raises in Ht. pose proof (Hexc _ _ Ht) as Hc.
      destruct e; simpl in Hc; try discriminate; eexists; reflexivity.
  - repeat split; intros msg Hup.
    + apply luxior_try_raises in Hup. unfold scrape_luxior. now rewrite Hup.
    + apply ami3f_try_raises in Hup. unfold scrape_ami3f. now rewrite Hup.
    + apply luxior_try_raises in Hup. unfold scrape_luxior. now rewrite Hup.
    + apply ami3f_try_raises in Hup. unfold scrape_ami3f. now rewrite Hup.
Qed.

(** The amended C1 at a request that times out. *)
Lemma adapters_catch_exceptions_witness :
  scrape_luxior times_out (parses_to (document [])) (lit "REF")
  = Return (error_record (lit "REF") (lit "luxior")
              (lit "Timeout - Le serveur Luxior ne répond pas")).
Proof.
  assert (Hexc : forall url e,
            upstream_raises times_out (parses_to (document [])) url e ->
            is_Exception e = true).
  { intros url e [H | [response [H _]]]; unfold times_out in H.
    - injection H as <-. reflexivity.
    - discriminate H. }
  destruct (adapters_catch_exceptions times_out (parses_to (document []))
              (lit "REF") Hexc) as [_ [_ [Htimeout _]]].
  apply (Htimeout (lit "timed out")). left. reflexivity.
Defined.

(** ** The dispatcher (C2) *)

Lemma reference_check (s : str) :
  negb (truthy s) || negb (truthy (strip s)) = blank s.
Proof.
  destruct (blank s) eqn:Hb.
  - apply strip_blank in Hb. rewrite Hb. simpl. apply orb_true_r.
  - assert (Hs : strip s <> []).
    { intros E. apply strip_blank in E. congruence. }
    destruct s as [|c s]; [discriminate Hb|].
    destruct (strip (c :: s)); [contradiction|reflexivity].
Qed.




(** A blank reference is rejected before the supplier is looked at, and a
    supplier that is not known is rejected for a reference that is not blank. *)
Example dispatcher_rejections :
  recherche_produit times_out (parses_to (document [])) sample_lower
    {| produit_reference := lit "  "; produit_fournisseur := lit "nobody" |}
  = HTTPException 400 (lit "La référence est obligatoire")
  /\ recherche_produit times_out (parses_to (document [])) sample_lower
       {| produit_reference := lit "REF"; produit_fournisseur := lit "nobody" |}
     = HTTPException 400
         (lit "Fournisseur non supporté. Utilisez 'luxior' ou 'ami3f'").
Proof. split; vm_compute; reflexivity. Qed.

(** ** Responses that are not 200 (C3) *)

(** C3, as the specification words it, does not hold: for a response with
    status 404 the error is not "HTTP error 404". *)
Lemma http_error_message_counterexample :
  ~ (exists r,
       scrape_luxior (responds 404 []) (parses_to (document [])) (lit "REF") = Return r
       /\ erreur r = Some (lit "HTTP error 404")).
Proof.
  intros [r [Hr He]]. vm_compute in Hr. injection Hr as <-.
  vm_compute in He. discriminate He.
Qed.

(** C3, amended: for a response whose status is not 200 each adapter returns
    the record with the error "Erreur HTTP " followed by the status in
    decimal, and with no price, designation or availability; for status 404 the
    error is "Erreur HTTP 404". *)
Theorem http_error_record :
  forall (client_get : str -> result Response)
         (BeautifulSoup : str -> result PageElement)
         (ref : str) (status : Z) (body : str),
  status <> 200%Z ->
  (client_get (luxior_search_url ref)
     = Return {| status_code := status; text := body |} ->
   scrape_luxior client_get BeautifulSoup ref
   = Return {| reference := ref; fournisseur := lit "luxior";
               prix := None; designation := None; disponibilite := None;
               erreur := Some (lit "Erreur HTTP " ++ str_of_int status) |})
  /\ (client_get (ami3f_search_url ref)
        = Return {| status_code := status; text := body |} ->
      scrape_ami3f client_get BeautifulSoup ref
      = Return {| reference := ref; fournisseur := lit "ami3f";
                  prix := None; designation := None; disponibilite := None;
                  erreur := Some (lit "Erreur HTTP " ++ str_of_int status) |})
  /\ lit "Erreur HTTP " ++ str_of_int 404 = lit "Erreur HTTP 404".
Proof.
  intros client_get BeautifulSoup ref status body Hs.
  split; [|split].
  - intros Hg. apply scrape_luxior_returns.
    rewrite (luxior_http_error _ _ _ _ Hg) by exact Hs. reflexivity.
  - intros Hg. apply scrape_ami3f_returns.
    rewrite (ami3f_http_error _ _ _ _ Hg) by exact Hs. reflexivity.
  - vm_compute. reflexivity.
Qed.

(** The amended C3 at status 404. *)
Lemma http_error_record_witness :
  scrape_ami3f (responds 404 []) (parses_to (document [])) (lit "REF")
  = Return (error_record (lit "REF") (lit "ami3f") (lit "Erreur HTTP 404")).
Proof.
  assert (Hs : 404%Z <> 200%Z) by discriminate.
  destruct (http_error_record (responds 404 []) (parses_to (document []))
              (lit "REF") 404 [] Hs) as [_ [Hami Hmsg]].
  rewrite (Hami eq_refl). unfold error_record. now rewrite Hmsg.
Defined.

(** ** Pages without a product (C4) *)

(** C4, as the specification words it, does not hold: for a page of a 200
    response without a product container the error is not "Product not
    found". *)
Lemma not_found_message_counterexample :
  ~ (exists r,
       scrape_ami3f (responds 200 []) (parses_to (document [])) (lit "REF") = Return r
       /\ erreur r = Some (lit "Product not found")).
Proof.
  intros [r [Hr He]]. vm_compute in Hr. injection Hr as <-.
  vm_compute in He. discriminate He.
Qed.

(** C4, amended: for a parsed page of a 200 response in which no container
    matches, the adapter returns the record with the error "Produit non
    trouvé". For [scrape_luxior] the container is the first [div] with the
    class [product-item-info]; [scrape_ami3f] takes the first [div] with the
    class [product-card], and only where there is none the first [article]
    with the class [product], and answers "Produit non trouvé" exactly when
    there is neither. *)
Theorem product_not_found :
  forall (client_get : str -> result Response)
         (BeautifulSoup : str -> result PageElement)
         (ref body : str) (soup : PageElement),
  BeautifulSoup body = Return soup ->
  (client_get (luxior_search_url ref)
     = Return {| status_code := 200; text := body |} ->
   (forall d, In d (descendants soup) ->
      tag_matches [lit "div"] (class_str (lit "product-item-info")) d = false) ->
   scrape_luxior client_get BeautifulSoup ref
   = Return (error_record ref (lit "luxior") (lit "Produit non trouvé")))
  /\ (client_get (ami3f_search_url ref)
        = Return {| status_code := 200; text := body |} ->
      (scrape_ami3f client_get BeautifulSoup ref
       = Return (error_record ref (lit "ami3f") (lit "Produit non trouvé"))
       <-> find [lit "div"] (class_str (lit "product-card")) soup = None
           /\ find [lit "article"] (class_str (lit "product")) soup = None))
  /\ (forall card,
        find [lit "div"] (class_str (lit "product-card")) soup = Some card ->
        ami3f_product_card soup = Some card)
  /\ (find [lit "div"] (class_str (lit "product-card")) soup = None ->
      ami3f_product_card soup
      = find [lit "article"] (class_str (lit "product")) soup).
Proof.
  intros client_get BeautifulSoup ref body soup Hp.
  split; [|split; [|split]].
  - intros Hg Hnone. apply find_none_iff in Hnone.
    apply scrape_luxior_returns.
    rewrite (luxior_parsed _ _ _ _ soup Hg eq_refl Hp). now rewrite Hnone.
  - intros Hg. unfold scrape_ami3f.
    rewrite (ami3f_parsed _ _ _ _ soup Hg eq_refl Hp).
    unfold ami3f_product_card.
    destruct (find [lit "div"] (class_str (lit "product-card")) soup) as [card|].
    + split; [intros H; discriminate H | intros [H _]; discriminate H].
    + destruct (find [lit "article"] (class_str (lit "product")) soup) as [card|].
      * split; [intros H; discriminate H | intros [_ H]; discriminate H].
      * split; [intros _; now split | reflexivity].
  - intros card Hc. unfold ami3f_product_card. now rewrite Hc.
  - intros Hc. unfold ami3f_product_card. now rewrite Hc.
Qed.

(** The amended C4 at an empty page. *)
Lemma product_not_found_witness :
  scrape_luxior (responds 200 []) (parses_to (document [])) (lit "REF")
  = Return (error_record (lit "REF") (lit "luxior") (lit "Produit non trouvé")).
Proof.
  destruct (product_not_found (responds 200 []) (parses_to (document []))
              (lit "REF") [] (document []) eq_refl) as [Hlux _].
  apply Hlux; [reflexivity|]. intros d Hd. destruct Hd.
Defined.

(** The product card is taken even where an article comes first in the page. *)
Example product_card_before_article :
  ami3f_product_card ami3f_page_both
  = Some (Tag (lit "div") (Some [lit "product-card"]) [element "a" "name" "Card"]).
Proof. vm_compute. reflexivity. Qed.

(** ** The price (C5, C6) *)

Lemma decimal_period : decimal period = None.
Proof. vm_compute. reflexivity. Qed.

Lemma digits_value_no_period (s : str) (acc m : N) :
  digits_value acc s = Some m -> ~ In period s.
Proof.
  revert acc; induction s as [|c s IH]; intros acc H; [intros []|].
  simpl in H. intros [E|Hin].
  - subst c. rewrite decimal_period in H. discriminate H.
  - destruct (decimal c); [|discriminate H]. exact (IH _ H Hin).
Qed.

Lemma split_period_at (a b : str) :
  ~ In period a -> split_period (a ++ period :: b) = (a, Some b).
Proof.
  induction a as [|c a IH]; intros H.
  - reflexivity.
  - simpl. destruct (N.eqb_spec c period) as [->|_].
    + exfalso. apply H. now left.
    + rewrite IH; [reflexivity|]. intros Hin. apply H. now right.
Qed.

Lemma split_period_whole (s : str) :
  ~ In period s -> split_period s = (s, None).
Proof.
  induction s as [|c s IH]; intros H; [reflexivity|].
  simpl. destruct (N.eqb_spec c period) as [->|_].
  - exfalso. apply H. now left.
  - rewrite IH; [reflexivity|]. intros Hin. apply H. now right.
Qed.

Lemma length_eqb_false (s : str) : s <> [] -> (List.length s =? 0)%nat = false.
Proof. destruct s; [contradiction | reflexivity]. Qed.

(** [float] reads digits around one period as the decimal numeral they are. *)
Lemma py_float_fraction (int_part frac_part : str) (m : N) :
  int_part ++ frac_part <> [] ->
  digits_value 0 (int_part ++ frac_part) = Some m ->
  py_float (int_part ++ period :: frac_part)
  = Some (Z.of_N m # Z.to_pos (10 ^ Z.of_nat (List.length frac_part))).
Proof.
  intros Hne Hd. unfold py_float. rewrite split_period_at.
  - rewrite <- length_app, length_eqb_false by exact Hne. now rewrite Hd.
  - intros Hin. apply (digits_value_no_period _ _ _ Hd).
    apply in_or_app. now left.
Qed.

(** [float] reads digits without a period as the integer they are. *)
Lemma py_float_integer (s : str) (m : N) :
  s <> [] -> digits_value 0 s = Some m -> py_float s = Some (Z.of_N m # 1).
Proof.
  intros Hne Hd. unfold py_float.
  rewrite split_period_whole by exact (digits_value_no_period _ _ _ Hd).
  rewrite app_nil_r. cbn [List.length]. rewrite Nat.add_0_r.
  rewrite length_eqb_false by exact Hne. now rewrite Hd.
Qed.

(** [float] raises on a string of periods. *)
Lemma py_float_periods (s : str) :
  (forall c, In c s -> c = period) -> py_float s = None.
Proof.
  intros H. destruct s as [|c s]; [reflexivity|].
  rewrite (H c) by now left. unfold py_float. cbn [split_period].
  rewrite N.eqb_refl. cbn [List.length Nat.add app].
  destruct s as [|d s]; [reflexivity|].
  cbn [List.length Nat.eqb digits_value].
  rewrite (H d) by (right; now left). now rewrite decimal_period.
Qed.

Lemma in_re_sub_non_price (raw : str) (c : char) :
  In c (re_sub_non_price raw)
  <-> In c raw /\ (isdecimal c = true \/ c = comma \/ c = period).
Proof.
  unfold re_sub_non_price. rewrite filter_In. unfold price_char.
  rewrite !orb_true_iff, !N.eqb_eq. tauto.
Qed.

Lemma prix_clean_no_digit (raw : str) :
  (forall c, In c raw -> isdecimal c = false) ->
  forall c, In c (prix_clean raw) -> c = period.
Proof.
  intros H c Hc. unfold prix_clean, replace_comma in Hc.
  apply in_map_iff in Hc as [d [Hd Hin]]. cbv beta in Hd.
  apply in_re_sub_non_price in Hin as [Hin Hk].
  destruct (N.eqb_spec d comma) as [E|Hn]; [now symmetry|].
  subst d. destruct Hk as [Hk | [Hk | Hk]]; [|contradiction|exact Hk].
  rewrite (H c Hin) in Hk. discriminate Hk.
Qed.



(** C6: when no price comes out of the price text of a found container,
    the record is returned with no price and no error, and with the
    designation and the availability that were extracted. A price text
    without a digit, such as "Contact us", gives no price. *)
Theorem price_failure_is_no_error :
  forall (client_get : str -> result Response)
         (BeautifulSoup : str -> result PageElement)
         (ref body : str) (soup : PageElement),
  BeautifulSoup body = Return soup ->
  (forall item,
     client_get (luxior_search_url ref)
       = Return {| status_code := 200; text := body |} ->
     find [lit "div"] (class_str (lit "product-item-info")) soup = Some item ->
     prix_of_text (option_map (fun e => strip (get_text e))
                     (find [lit "span"] (class_str (lit "price")) item)) = None ->
     scrape_luxior client_get BeautifulSoup ref
     = Return
         {| reference := ref; fournisseur := lit "luxior"; prix := None;
            designation :=
              Some (text_or (find [lit "a"] (class_str (lit "product-item-link")) item)
                            (lit "N/A"));
            disponibilite :=
              Some (text_or (find [lit "div"] (class_str (lit "stock")) item)
                            (lit "À vérifier"));
            erreur := None |})
  /\ (forall card,
        client_get (ami3f_search_url ref)
          = Return {| status_code := 200; text := body |} ->
        ami3f_product_card soup = Some card ->
        prix_of_text (option_map (fun e => strip (get_text e))
                        (find [lit "span"; lit "div"] (class_re re_price) card)) = None ->
        scrape_ami3f client_get BeautifulSoup ref
        = Return
            {| reference := ref; fournisseur := lit "ami3f"; prix := None;
               designation :=
                 Some (text_or (find [lit "h2"; lit "h3"; lit "a"]
                                  (class_re re_product_title_or_name) card)
                               (lit "N/A"));
               disponibilite :=
                 Some (text_or (find [lit "span"; lit "div"]
                                  (class_re re_stock_or_availability) card)
                               (lit "À vérifier"));
               erreur := None |})
  /\ (forall raw,
        (forall c, In c raw -> isdecimal c = false) ->
        prix_of_text (Some raw) = None)
  /\ prix_of_text (Some (lit "Contact us")) = None.
Proof.
  intros client_get BeautifulSoup ref body soup Hp.
  split; [|split; [|split]].
  - intros item Hg Hitem Hprix. apply scrape_luxior_returns.
    rewrite (luxior_parsed _ _ _ _ soup Hg eq_refl Hp), Hitem, Hprix.
    reflexivity.
  - intros card Hg Hcard Hprix. apply scrape_ami3f_returns.
    rewrite (ami3f_parsed _ _ _ _ soup Hg eq_refl Hp), Hcard, Hprix.
    reflexivity.
  - intros raw Hraw. unfold prix_of_text.
    destruct (truthy raw); [|reflexivity].
    apply py_float_periods. now apply prix_clean_no_digit.
  - vm_compute. reflexivity.
Qed.

(** C6 at a product card whose price reads "Contact us". *)
Lemma price_failure_is_no_error_witness :
  scrape_ami3f (responds 200 []) (parses_to (ami3f_page "product-title" "Contact us"))
    (lit "REF")
  = Return {| reference := lit "REF"; fournisseur := lit "ami3f"; prix := None;
              designation := Some (lit "Widget");
              disponibilite := Some (lit "À vérifier"); erreur := None |}.
Proof.
  destruct (price_failure_is_no_error (responds 200 [])
              (parses_to (ami3f_page "product-title" "Contact us"))
              (lit "REF") [] (ami3f_page "product-title" "Contact us") eq_refl)
    as [_ [Hami _]].
  rewrite (Hami (Tag (lit "div") (Some [lit "product-card"])
                   [element "h2" "product-title" " Widget ";
                    element "span" "price" "Contact us"])).
  - vm_compute. reflexivity.
  - reflexivity.
  - vm_compute. reflexivity.
  - vm_compute. reflexivity.
Defined.

(** ** The search URL (C7) *)





(** ** The designation (C8) *)

(** C8, as the specification words it, does not hold: a heading whose class
    is "Name", or "title", passes the class test of the specification, and so
    does a link whose class is "product-name"; the specification gives the
    designation "Widget" for the three containers, the adapters give "N/A". *)
Lemma designation_counterexample :
  (exists r card,
     scrape_ami3f (responds 200 []) (parses_to (ami3f_page "Name" "10")) (lit "REF")
       = Return r
     /\ ami3f_product_card (ami3f_page "Name" "10") = Some card
     /\ spec_designation [lit "h2"; lit "h3"; lit "a"] card = lit "Widget"
     /\ designation r = Some (lit "N/A"))
  /\ (exists r card,
        scrape_ami3f (responds 200 []) (parses_to (ami3f_page "title" "10")) (lit "REF")
          = Return r
        /\ ami3f_product_card (ami3f_page "title" "10") = Some card
        /\ spec_designation [lit "h2"; lit "h3"; lit "a"] card = lit "Widget"
        /\ designation r = Some (lit "N/A"))
  /\ (exists r item,
        scrape_luxior (responds 200 []) (parses_to (luxior_page "product-name" "10"))
          (lit "REF") = Return r
        /\ find [lit "div"] (class_str (lit "product-item-info"))
             (luxior_page "product-name" "10") = Some item
        /\ spec_designation [lit "a"] item = lit "Widget"
        /\ designation r = Some (lit "N/A")).
Proof.
  split; [|split]; eexists; eexists;
    (split; [vm_compute; reflexivity|]);
    (split; [vm_compute; reflexivity|]);
    (split; vm_compute; reflexivity).
Qed.

Lemma match_against_str (s value : str) :
  match_against (class_str s) value = true <-> value = s.
Proof. simpl. apply str_eqb_eq. Qed.

Lemma re_product_title_or_name_spec (value : str) :
  re_product_title_or_name value = true
  <-> (exists x y, value = x ++ lit "name" ++ y)
      \/ (exists x m y,
            value = x ++ lit "product" ++ m ++ lit "title" ++ y
            /\ ~ In newline m).
Proof.
  unfold re_product_title_or_name.
  rewrite orb_true_iff, search_word_spec, search_dotstar_spec.
  - tauto.
  - vm_compute. intuition discriminate.
Qed.

(** C8, amended: within the container that was found, the designation is
    the stripped text of the first element, in document order, that the one
    selector of the adapter matches, and "N/A" when it matches none. The
    selector of [scrape_luxior] takes an [a] one of whose classes is
    "product-item-link"; that of [scrape_ami3f] takes an [h2], [h3] or [a]
    whose class holds, in these very letters, "name", or "product" and later
    on the same line "title". *)
Theorem designation_extraction :
  forall (client_get : str -> result Response)
         (BeautifulSoup : str -> result PageElement)
         (ref body : str) (soup : PageElement),
  BeautifulSoup body = Return soup ->
  (forall item,
     client_get (luxior_search_url ref)
       = Return {| status_code := 200; text := body |} ->
     find [lit "div"] (class_str (lit "product-item-info")) soup = Some item ->
     exists r,
       scrape_luxior client_get BeautifulSoup ref = Return r
       /\ designation r
          = Some (match find [lit "a"] (class_str (lit "product-item-link")) item with
                  | Some e => strip (get_text e)
                  | None => lit "N/A"
                  end))
  /\ (forall card,
        client_get (ami3f_search_url ref)
          = Return {| status_code := 200; text := body |} ->
        ami3f_product_card soup = Some card ->
        exists r,
          scrape_ami3f client_get BeautifulSoup ref = Return r
          /\ designation r
             = Some (match find [lit "h2"; lit "h3"; lit "a"]
                             (class_re re_product_title_or_name) card with
                     | Some e => strip (get_text e)
                     | None => lit "N/A"
                     end))
  /\ (forall names f container e,
        find names f container = Some e
        <-> exists before after,
              descendants container = before ++ e :: after
              /\ tag_matches names f e = true
              /\ forall x, In x before -> tag_matches names f x = false)
  /\ (forall value,
        match_against (class_str (lit "product-item-link")) value = true
        <-> value = lit "product-item-link")
  /\ (forall value,
        match_against (class_re re_product_title_or_name) value = true
        <-> (exists x y, value = x ++ lit "name" ++ y)
            \/ (exists x m y,
                  value = x ++ lit "product" ++ m ++ lit "title" ++ y
                  /\ ~ In newline m)).
Proof.
  intros client_get BeautifulSoup ref body soup Hp.
  split; [|split; [|split; [|split]]].
  - intros item Hg Hitem. eexists. split.
    + apply scrape_luxior_returns.
      rewrite (luxior_parsed _ _ _ _ soup Hg eq_refl Hp), Hitem. reflexivity.
    + reflexivity.
  - intros card Hg Hcard. eexists. split.
    + apply scrape_ami3f_returns.
      rewrite (ami3f_parsed _ _ _ _ soup Hg eq_refl Hp), Hcard. reflexivity.
    + reflexivity.
  - intros names f container e. apply find_first.
  - intros value. apply match_against_str.
  - intros value. apply re_product_title_or_name_spec.
Qed.

(** The amended C8 at a product card whose heading has the class
    "product-title". *)
Lemma designation_extraction_witness :
  exists r,
    scrape_ami3f (responds 200 []) (parses_to (ami3f_page "product-title" "10"))
      (lit "REF") = Return r
    /\ designation r = Some (lit "Widget").
Proof.
  destruct (designation_extraction (responds 200 [])
              (parses_to (ami3f_page "product-title" "10"))
              (lit "REF") [] (ami3f_page "product-title" "10") eq_refl)
    as [_ [Hami _]].
  destruct (Hami (Tag (lit "div") (Some [lit "product-card"])
                    [element "h2" "product-title" " Widget ";
                     element "span" "price" "10"]) eq_refl)
    as [r [Hr Hd]].
  - vm_compute. reflexivity.
  - exists r. split; [exact Hr|]. rewrite Hd. vm_compute. reflexivity.
Defined.

(** ** The shape of the records (C9, C10) *)

Lemma luxior_try_record client_get BeautifulSoup (ref : str) (r : ProduitResponse) :
  luxior_try client_get BeautifulSoup ref = Return r ->
  adapter_record ref (lit "luxior") r.
Proof.
  unfold luxior_try, adapter_record, error_record. intros H.
  destruct (client_get (luxior_search_url ref)) as [response|e];
    cbn [bind] in H; [|discriminate H].
  destruct (negb (status_code response =? 200)%Z).
  { injection H as <-. left. eexists. reflexivity. }
  destruct (BeautifulSoup (text response)) as [soup|e];
    cbn [bind] in H; [|discriminate H].
  destruct (find [lit "div"] (class_str (lit "product-item-info")) soup).
  - injection H as <-. right. do 3 eexists. reflexivity.
  - injection H as <-. left. eexists. reflexivity.
Qed.

Lemma ami3f_try_record client_get BeautifulSoup (ref : str) (r : ProduitResponse) :
  ami3f_try client_get BeautifulSoup ref = Return r ->
  adapter_record ref (lit "ami3f") r.
Proof.
  unfold ami3f_try, adapter_record, error_record. intros H.
  destruct (client_get (ami3f_search_url ref)) as [response|e];
    cbn [bind] in H; [|discriminate H].
  destruct (negb (status_code response =? 200)%Z).
  { injection H as <-. left. eexists. reflexivity. }
  destruct (BeautifulSoup (text response)) as [soup|e];
    cbn [bind] in H; [|discriminate H].
  destruct (ami3f_product_card soup).
  - injection H as <-. right. do 3 eexists. reflexivity.
  - injection H as <-. left. eexists. reflexivity.
Qed.

(** What an adapter gives: a record of its supplier for the reference, or an
    exception of the outside that is no [Exception]. *)
Lemma scrape_luxior_outcome client_get BeautifulSoup (ref : str) :
  match scrape_luxior client_get BeautifulSoup ref with
  | Return r => adapter_record ref (lit "luxior") r
  | Raise e =>
      is_Exception e = false
      /\ upstream_raises client_get BeautifulSoup (luxior_search_url ref) e
  end.
Proof.
  unfold scrape_luxior.
  destruct (luxior_try client_get BeautifulSoup ref) as [r|e] eqn:Ht.
  - exact (luxior_try_record _ _ _ _ Ht).
  - destruct e as [msg|msg|msg].
    + left. eexists. reflexivity.
    + left. eexists. reflexivity.
    + split; [reflexivity|]. now apply luxior_try_raises.
Qed.

Lemma scrape_ami3f_outcome client_get BeautifulSoup (ref : str) :
  match scrape_ami3f client_get BeautifulSoup ref with
  | Return r => adapter_record ref (lit "ami3f") r
  | Raise e =>
      is_Exception e = false
      /\ upstream_raises client_get BeautifulSoup (ami3f_search_url ref) e
  end.
Proof.
  unfold scrape_ami3f.
  destruct (ami3f_try client_get BeautifulSoup ref) as [r|e] eqn:Ht.
  - exact (ami3f_try_record _ _ _ _ Ht).
  - destruct e as [msg|msg|msg].
    + left. eexists. reflexivity.
    + left. eexists. reflexivity.
    + split; [reflexivity|]. now apply ami3f_try_raises.
Qed.

Lemma adapter_record_exclusive (ref supplier : str) (r : ProduitResponse) :
  adapter_record ref supplier r ->
  payload_exclusive r
  /\ (erreur r = None <-> designation r <> None /\ disponibilite r <> None).
Proof.
  intros [[message ->] | [p [d [a ->]]]]; unfold payload_exclusive; simpl.
  - split; [auto|]. split; [discriminate | intros [H _]; now contradiction H].
  - split; [exact I|]. split; [intros _; split; discriminate | reflexivity].
Qed.

Lemma adapter_record_echo (ref supplier : str) (r : ProduitResponse) :
  adapter_record ref supplier r -> reference r = ref /\ fournisseur r = supplier.
Proof. intros [[message ->] | [p [d [a ->]]]]; simpl; auto. Qed.

(** C9: every record an adapter returns, and every record the body of its
    [try] produces, keeps the payloads apart: where the error is populated
    the price, the designation and the availability are absent; and where a
    container was found the record is returned with no error. The records
    without an error are those with a designation and an availability. *)
Theorem payload_exclusivity :
  forall (client_get : str -> result Response)
         (BeautifulSoup : str -> result PageElement) (ref : str),
  (forall r,
     scrape_luxior client_get BeautifulSoup ref = Return r
     \/ scrape_ami3f client_get BeautifulSoup ref = Return r
     \/ luxior_try client_get BeautifulSoup ref = Return r
     \/ ami3f_try client_get BeautifulSoup ref = Return r ->
     (erreur r <> None ->
      prix r = None /\ designation r = None /\ disponibilite r = None)
     /\ (erreur r = None <-> designation r <> None /\ disponibilite r <> None))
  /\ (forall body soup item,
        client_get (luxior_search_url ref)
          = Return {| status_code := 200; text := body |} ->
        BeautifulSoup body = Return soup ->
        find [lit "div"] (class_str (lit "product-item-info")) soup = Some item ->
        exists r,
          scrape_luxior client_get BeautifulSoup ref = Return r /\ erreur r = None)
  /\ (forall body soup card,
        client_get (ami3f_search_url ref)
          = Return {| status_code := 200; text := body |} ->
        BeautifulSoup body = Return soup ->
        ami3f_product_card soup = Some card ->
        exists r,
          scrape_ami3f client_get BeautifulSoup ref = Return r /\ erreur r = None).
Proof.
  intros client_get BeautifulSoup ref. split; [|split].
  - intros r Hr.
    assert (Hshape : exists supplier, adapter_record ref supplier r).
    { destruct Hr as [H | [H | [H | H]]].
      - exists (lit "luxior").
        pose proof (scrape_luxior_outcome client_get BeautifulSoup ref) as Ho.
        now rewrite H in Ho.
      - exists (lit "ami3f").
        pose proof (scrape_ami3f_outcome client_get BeautifulSoup ref) as Ho.
        now rewrite H in Ho.
      - exists (lit "luxior"). exact (luxior_try_record _ _ _ _ H).
      - exists (lit "ami3f"). exact (ami3f_try_record _ _ _ _ H). }
    destruct Hshape as [supplier Hshape].
    destruct (adapter_record_exclusive _ _ _ Hshape) as [Hex Hiff].
    split; [|exact Hiff].
    unfold payload_exclusive in Hex. intros He.
    destruct (erreur r); [exact Hex | now contradiction He].
  - intros body soup item Hg Hp Hitem. eexists. split.
    + apply scrape_luxior_returns.
      rewrite (luxior_parsed _ _ _ _ soup Hg eq_refl Hp), Hitem. reflexivity.
    + reflexivity.
  - intros body soup card Hg Hp Hcard. eexists. split.
    + apply scrape_ami3f_returns.
      rewrite (ami3f_parsed _ _ _ _ soup Hg eq_refl Hp), Hcard. reflexivity.
    + reflexivity.
Qed.

(** C9 at a response with status 503. *)
Lemma payload_exclusivity_witness :
  prix (error_record (lit "REF") (lit "luxior") (lit "Erreur HTTP 503")) = None
  /\ designation (error_record (lit "REF") (lit "luxior") (lit "Erreur HTTP 503")) = None
  /\ disponibilite (error_record (lit "REF") (lit "luxior") (lit "Erreur HTTP 503")) = None.
Proof.
  destruct (payload_exclusivity (responds 503 []) (parses_to (document []))
              (lit "REF")) as [Hall _].
  refine (proj1 (Hall (error_record (lit "REF") (lit "luxior") (lit "Erreur HTTP 503")) _) _).
  - left. vm_compute. reflexivity.
  - discriminate.
Defined.

(** C10: on every path [scrape_luxior] returns a record with the reference
    it was given and the supplier "luxior", and [scrape_ami3f] one with the
    reference it was given and the supplier "ami3f"; nothing but an exception
    of the outside that is no [Exception] keeps them from returning. The
    record [recherche_produit] hands on is the record of the adapter, with
    the reference of the request and its supplier in lower case. *)
Theorem reference_and_supplier_echoed :
  forall (client_get : str -> result Response)
         (BeautifulSoup : str -> result PageElement)
         (unicode_lower : str -> str) (ref : str),
  match scrape_luxior client_get BeautifulSoup ref with
  | Return r => reference r = ref /\ fournisseur r = lit "luxior"
  | Raise e =>
      is_Exception e = false
      /\ upstream_raises client_get BeautifulSoup (luxior_search_url ref) e
  end
  /\ match scrape_ami3f client_get BeautifulSoup ref with
     | Return r => reference r = ref /\ fournisseur r = lit "ami3f"
     | Raise e =>
         is_Exception e = false
         /\ upstream_raises client_get BeautifulSoup (ami3f_search_url ref) e
     end
  /\ forall fourn r,
       recherche_produit client_get BeautifulSoup unicode_lower
         {| produit_reference := ref; produit_fournisseur := fourn |}
       = Serialized r ->
       (scrape_luxior client_get BeautifulSoup ref = Return r
        \/ scrape_ami3f client_get BeautifulSoup ref = Return r)
       /\ reference r = ref
       /\ fournisseur r = lower unicode_lower fourn.
Proof.
  intros client_get BeautifulSoup unicode_lower ref.
  pose proof (scrape_luxior_outcome client_get BeautifulSoup ref) as Hl.
  pose proof (scrape_ami3f_outcome client_get BeautifulSoup ref) as Ha.
  split; [|split].
  - destruct (scrape_luxior client_get BeautifulSoup ref) as [r|e];
      [exact (adapter_record_echo _ _ _ Hl) | exact Hl].
  - destruct (scrape_ami3f client_get BeautifulSoup ref) as [r|e];
      [exact (adapter_record_echo _ _ _ Ha) | exact Ha].
  - intros fourn r H. unfold recherche_produit in H.
    cbn [produit_reference produit_fournisseur] in H.
    destruct (negb (truthy ref) || negb (truthy (strip ref))); [discriminate H|].
    destruct (str_eqb (lower unicode_lower fourn) (lit "luxior")) eqn:El.
    + apply str_eqb_eq in El.
      destruct (scrape_luxior client_get BeautifulSoup ref) as [r'|e];
        [|discriminate H].
      injection H as <-. destruct (adapter_record_echo _ _ _ Hl) as [Hr Hf].
      split; [now left|]. split; [exact Hr | congruence].
    + destruct (str_eqb (lower unicode_lower fourn) (lit "ami3f")) eqn:Ea;
        [|discriminate H].
      apply str_eqb_eq in Ea.
      destruct (scrape_ami3f client_get BeautifulSoup ref) as [r'|e];
        [|discriminate H].
      injection H as <-. destruct (adapter_record_echo _ _ _ Ha) as [Hr Hf].
      split; [now right|]. split; [exact Hr | congruence].
Qed.

(** C10 at a request for the supplier "AMI3F". *)
Lemma reference_and_supplier_echoed_witness :
  exists r,
    recherche_produit (responds 200 []) (parses_to ami3f_page_both) sample_lower
      {| produit_reference := lit "REF"; produit_fournisseur := lit "AMI3F" |}
    = Serialized r
    /\ reference r = lit "REF"
    /\ fournisseur r = lower sample_lower (lit "AMI3F").
Proof.
  destruct (reference_and_supplier_echoed (responds 200 [])
              (parses_to ami3f_page_both) sample_lower (lit "REF"))
    as [_ [_ Hd]].
  destruct (recherche_produit (responds 200 []) (parses_to ami3f_page_both)
              sample_lower
              {| produit_reference := lit "REF"; produit_fournisseur := lit "AMI3F" |})
    as [r|status detail|e] eqn:E.
  - exists r. split; [reflexivity|].
    destruct (Hd (lit "AMI3F") r E) as [_ [Hr Hf]]. now split.
  - vm_compute in E. discriminate E.
  - vm_compute in E. discriminate E.
Defined.

(** * Further properties of the code *)

(** ** When a price text gives a price *)

Lemma prix_of_text_some (raw : str) :
  prix_of_text (Some raw) = py_float (prix_clean raw).
Proof. destruct raw; reflexivity. Qed.

Lemma isdecimal_period : isdecimal period = false.
Proof. vm_compute. reflexivity. Qed.

Lemma isdecimal_comma : isdecimal comma = false.
Proof. vm_compute. reflexivity. Qed.

Lemma digits_value_decimal (s : str) (acc : N) :
  (forall c, In c s -> isdecimal c = true) ->
  exists m, digits_value acc s = Some m.
Proof.
  revert acc; induction s as [|c s IH]; intros acc H; simpl.
  - now exists acc.
  - assert (Hc : isdecimal c = true) by (apply H; now left).
    unfold isdecimal in Hc. destruct (decimal c) as [d|]; [|discriminate Hc].
    apply IH. intros x Hx. apply H. now right.
Qed.

Lemma digits_value_period (s : str) (acc : N) :
  In period s -> digits_value acc s = None.
Proof.
  intros Hin. destruct (digits_value acc s) as [m|] eqn:E; [|reflexivity].
  now apply digits_value_no_period in E.
Qed.

Lemma first_period (s : str) :
  In period s -> exists a b, s = a ++ period :: b /\ ~ In period a.
Proof.
  induction s as [|c s IH]; intros H; [destruct H|].
  destruct (N.eq_dec c period) as [E|N].
  - exists [], s. rewrite E. split; [reflexivity | intros []].
  - destruct H as [E|H]; [contradiction|].
    destruct (IH H) as [a [b [Hs Ha]]]. exists (c :: a), b. split.
    + now rewrite Hs.
    + intros [E|Hin]; [contradiction | now apply Ha].
Qed.

Lemma periods_app (a b : str) : periods (a ++ b) = (periods a + periods b)%nat.
Proof. unfold periods. now rewrite filter_app, length_app. Qed.

Lemma periods_cons_period (s : str) : periods (period :: s) = S (periods s).
Proof. unfold periods. cbn [filter]. now rewrite N.eqb_refl. Qed.

Lemma periods_none (s : str) : ~ In period s -> periods s = 0%nat.
Proof.
  unfold periods. induction s as [|c s IH]; intros H; [reflexivity|].
  cbn [filter]. destruct (N.eqb_spec period c) as [E|_].
  - exfalso. apply H. now left.
  - apply IH. intros Hin. apply H. now right.
Qed.

Lemma periods_some (s : str) : In period s -> (1 <= periods s)%nat.
Proof.
  intros H. destruct (first_period s H) as [a [b [-> _]]].
  rewrite periods_app, periods_cons_period. lia.
Qed.

(** Over digits and periods, [float] returns exactly for the strings with a
    digit and at most one period. *)
Lemma py_float_defined (s : str) :
  (forall c, In c s -> isdecimal c = true \/ c = period) ->
  py_float s <> None
  <-> (exists c, In c s /\ isdecimal c = true) /\ (periods s <= 1)%nat.
Proof.
  intros Halpha.
  assert (Hdigits : forall t, (forall c, In c t -> In c s) -> ~ In period t ->
                              forall c, In c t -> isdecimal c = true).
  { intros t Hsub Hnp c Hc. destruct (Halpha c (Hsub c Hc)) as [H|H]; [exact H|].
    subst c. contradiction. }
  destruct (in_dec N.eq_dec period s) as [Hin|Hnot].
  - destruct (first_period s Hin) as [a [b [Hs Ha]]].
    assert (Hsa : forall c, In c a -> In c s).
    { intros c Hc. rewrite Hs. apply in_or_app. now left. }
    assert (Hsb : forall c, In c b -> In c s).
    { intros c Hc. rewrite Hs. apply in_or_app. right. now right. }
    destruct (in_dec N.eq_dec period b) as [Hb|Hb].
    + (* a second period *)
      split.
      * intros H. exfalso. apply H. rewrite Hs. unfold py_float.
        rewrite split_period_at by exact Ha.
        rewrite (digits_value_period (a ++ b)) by (apply in_or_app; now right).
        now destruct (List.length a + List.length b =? 0)%nat.
      * intros [_ Hle]. exfalso. rewrite Hs, periods_app, periods_cons_period in Hle.
        pose proof (periods_some b Hb). lia.
    + (* one period *)
      assert (Hab : forall c, In c (a ++ b) -> isdecimal c = true).
      { intros c Hc. apply in_app_or in Hc as [Hc|Hc].
        - exact (Hdigits a Hsa Ha c Hc).
        - exact (Hdigits b Hsb Hb c Hc). }
      destruct (digits_value_decimal (a ++ b) 0 Hab) as [m Hm].
      destruct (a ++ b) as [|x l] eqn:Eab.
      * apply app_eq_nil in Eab as [-> ->]. rewrite Hs. split.
        -- intros H. exfalso. apply H. reflexivity.
        -- intros [[c [[Hc|[]] Hd]] _]. subst c.
           rewrite isdecimal_period in Hd. discriminate Hd.
      * split.
        -- intros _. split.
           ++ exists x. split; [|apply Hab; now left].
              assert (Hx : In x (a ++ b)) by (rewrite Eab; now left).
              apply in_app_or in Hx as [Hx|Hx]; [now apply Hsa | now apply Hsb].
           ++ rewrite Hs, periods_app, periods_cons_period.
              rewrite (periods_none a Ha), (periods_none b Hb). lia.
        -- intros _. rewrite Hs.
           rewrite (py_float_fraction a b m); [discriminate | | ];
             rewrite Eab; [discriminate | exact Hm].
  - (* no period *)
    assert (Hall : forall c, In c s -> isdecimal c = true).
    { apply (Hdigits s); auto. }
    destruct (digits_value_decimal s 0 Hall) as [m Hm].
    destruct s as [|x l].
    + split.
      * intros H. exfalso. apply H. reflexivity.
      * intros [[c [[] _]] _].
    + split.
      * intros _. split.
        -- exists x. split; [now left | apply Hall; now left].
        -- rewrite (periods_none _ Hnot). lia.
      * intros _. rewrite (py_float_integer _ m); [discriminate | discriminate | exact Hm].
Qed.

Lemma prix_clean_cons (c : char) (raw : str) :
  prix_clean (c :: raw)
  = if price_char c
    then (if c =? comma then period else c) :: prix_clean raw
    else prix_clean raw.
Proof.
  unfold prix_clean, re_sub_non_price, replace_comma. simpl.
  now destruct (price_char c).
Qed.


Lemma periods_prix_clean (raw : str) : periods (prix_clean raw) = separators raw.
Proof.
  induction raw as [|c raw IH]; [reflexivity|].
  rewrite prix_clean_cons.
  assert (Hsep : separators (c :: raw)
                 = if separator c then S (separators raw) else separators raw).
  { unfold separators. cbn [filter]. now destruct (separator c). }
  rewrite Hsep, <- IH. unfold price_char, separator.
  destruct (N.eqb_spec c comma) as [Ec|Nc]; destruct (N.eqb_spec c period) as [Ep|Np];
    rewrite ?orb_true_r, ?orb_false_r; cbn [orb].
  - apply periods_cons_period.
  - apply periods_cons_period.
  - subst c. apply periods_cons_period.
  - destruct (isdecimal c); [|reflexivity].
    unfold periods. cbn [filter].
    destruct (N.eqb_spec period c) as [E|_]; [|reflexivity].
    symmetry in E. contradiction.
Qed.

Lemma prix_clean_alphabet (raw : str) (c : char) :
  In c (prix_clean raw) -> isdecimal c = true \/ c = period.
Proof.
  unfold prix_clean, replace_comma. intros Hc.
  apply in_map_iff in Hc as [d [Hd Hin]]. cbv beta in Hd.
  apply in_re_sub_non_price in Hin as [_ Hk].
  destruct (N.eqb_spec d comma) as [E|N]; [right; now symmetry|].
  subst d. destruct Hk as [H|[H|H]]; [now left | contradiction | now right].
Qed.

Lemma prix_clean_digit (raw : str) :
  (exists c, In c (prix_clean raw) /\ isdecimal c = true)
  <-> (exists c, In c raw /\ isdecimal c = true).
Proof.
  unfold prix_clean, replace_comma. split.
  - intros [c [Hc Hd]]. apply in_map_iff in Hc as [d [Hdc Hin]]. cbv beta in Hdc.
    apply in_re_sub_non_price in Hin as [Hin _].
    destruct (N.eqb_spec d comma) as [E|N].
    + subst c. rewrite isdecimal_period in Hd. discriminate Hd.
    + subst d. now exists c.
  - intros [c [Hc Hd]]. exists c. split; [|exact Hd].
    apply in_map_iff. exists c. split.
    + destruct (N.eqb_spec c comma) as [E|N]; [|reflexivity].
      subst c. rewrite isdecimal_comma in Hd. discriminate Hd.
    + apply in_re_sub_non_price. split; [exact Hc | now left].
Qed.

(** X1: a price text gives a price exactly when it holds a decimal digit
    and at most one comma or period; with a thousands separator beside the
    decimal one ("1.234,56") the price is absent. *)
Theorem price_defined_iff :
  forall raw : str,
  prix_of_text (Some raw) <> None
  <-> (exists c, In c raw /\ isdecimal c = true) /\ (separators raw <= 1)%nat.
Proof.
  intros raw. rewrite prix_of_text_some.
  rewrite (py_float_defined (prix_clean raw) (prix_clean_alphabet raw)).
  now rewrite prix_clean_digit, periods_prix_clean.
Qed.

(** ** The value of a price *)

Lemma prix_clean_app (x y : str) :
  prix_clean (x ++ y) = prix_clean x ++ prix_clean y.
Proof.
  unfold prix_clean, re_sub_non_price, replace_comma.
  now rewrite filter_app, map_app.
Qed.








Lemma price_char_replace (c : char) :
  price_char (if c =? comma then period else c) = price_char c.
Proof.
  destruct (N.eqb_spec c comma) as [E|N]; [|reflexivity].
  subst c. vm_compute. reflexivity.
Qed.

Lemma prix_clean_replace_comma (raw : str) :
  prix_clean (replace_comma raw) = prix_clean raw.
Proof.
  induction raw as [|c raw IH]; [reflexivity|].
  unfold replace_comma in *. cbn [map].
  rewrite !prix_clean_cons, price_char_replace, IH.
  destruct (price_char c); [|reflexivity]. f_equal.
  destruct (N.eqb_spec c comma) as [E|N]; [reflexivity|].
  destruct (N.eqb_spec c comma); [contradiction | reflexivity].
Qed.

Lemma prix_clean_noise (noise : str) :
  (forall c, In c noise -> price_char c = false) -> prix_clean noise = [].
Proof.
  induction noise as [|c noise IH]; intros H; [reflexivity|].
  rewrite prix_clean_cons, (H c) by now left.
  apply IH. intros x Hx. apply H. now right.
Qed.

(** X4: the price depends on the digits, commas and periods of the price
    text alone: any other characters, wherever they stand, change nothing,
    and a comma and a period are read alike. *)
Theorem price_reads_digits_and_separators :
  forall before noise after : str,
  (forall c, In c noise -> price_char c = false) ->
  prix_of_text (Some (before ++ noise ++ after))
  = prix_of_text (Some (before ++ after))
  /\ prix_of_text (Some (replace_comma (before ++ after)))
     = prix_of_text (Some (before ++ after)).
Proof.
  intros before noise after Hnoise. split.
  - rewrite !prix_of_text_some, !prix_clean_app, (prix_clean_noise noise Hnoise).
    reflexivity.
  - now rewrite !prix_of_text_some, prix_clean_replace_comma.
Qed.

(** X4 at "12,50" with a currency put after it. *)
Lemma price_reads_digits_and_separators_witness :
  prix_of_text (Some (lit "12,50" ++ lit " EUR TTC" ++ []))
  = prix_of_text (Some (lit "12,50" ++ [])).
Proof.
  refine (proj1 (price_reads_digits_and_separators (lit "12,50") (lit " EUR TTC") [] _)).
  intros c Hc. vm_compute in Hc.
  repeat (destruct Hc as [<-|Hc]; [vm_compute; reflexivity|]). destruct Hc.
Defined.

(** ** [strip] *)

Lemma lstrip_idempotent (s : str) : lstrip (lstrip s) = lstrip s.
Proof.
  induction s as [|c s IH]; [reflexivity|]. simpl.
  destruct (isspace c) eqn:E; [exact IH|]. simpl. now rewrite E.
Qed.

Lemma lstrip_snoc (s : str) (c : char) :
  isspace c = false -> lstrip (s ++ [c]) = lstrip s ++ [c].
Proof.
  intros Hc. induction s as [|x s IH]; simpl.
  - now rewrite Hc.
  - destruct (isspace x); [exact IH | reflexivity].
Qed.

Lemma lstrip_head (s : str) (c : char) (r : str) :
  lstrip s = c :: r -> isspace c = false.
Proof.
  induction s as [|x s IH]; simpl; [discriminate|].
  destruct (isspace x) eqn:E; [exact IH|]. intros H. now injection H as <- _.
Qed.

Lemma lstrip_fixed (s : str) :
  (forall c r, s = c :: r -> isspace c = false) -> lstrip s = s.
Proof.
  destruct s as [|c r]; intros H; [reflexivity|].
  simpl. now rewrite (H c r eq_refl).
Qed.

Lemma rstrip_head (s : str) (c : char) (r : str) :
  isspace c = false -> exists r', rstrip (c :: r) = c :: r'.
Proof.
  intros Hc. unfold rstrip. simpl. rewrite (lstrip_snoc _ _ Hc), rev_app_distr.
  simpl. now eexists.
Qed.

Lemma rstrip_idempotent (s : str) : rstrip (rstrip s) = rstrip s.
Proof. unfold rstrip. now rewrite rev_involutive, lstrip_idempotent. Qed.

Lemma strip_head (s : str) (c : char) (r : str) :
  strip s = c :: r -> isspace c = false.
Proof.
  unfold strip. destruct (lstrip s) as [|x t] eqn:E.
  - discriminate.
  - pose proof (lstrip_head _ _ _ E) as Hx.
    destruct (rstrip_head t x t Hx) as [r' Hr]. rewrite Hr.
    intros H. now injection H as <- _.
Qed.

Lemma strip_last (s : str) (c : char) (r : str) :
  strip s = r ++ [c] -> isspace c = false.
Proof.
  unfold strip, rstrip. intros H. apply (f_equal (@rev char)) in H.
  rewrite rev_involutive, rev_app_distr in H. simpl in H.
  exact (lstrip_head _ _ _ H).
Qed.

(** Stripping what is stripped changes nothing. *)
Lemma strip_idempotent (s : str) : strip (strip s) = strip s.
Proof.
  unfold strip at 1.
  rewrite (lstrip_fixed (strip s)) by (intros c r H; exact (strip_head s c r H)).
  unfold strip. apply rstrip_idempotent.
Qed.

(** ** The paths of the adapters, all of them *)

Lemma luxior_try_cases client_get BeautifulSoup (ref : str) :
  (exists e,
     upstream_raises client_get BeautifulSoup (luxior_search_url ref) e
     /\ luxior_try client_get BeautifulSoup ref = Raise e)
  \/ (exists response,
        client_get (luxior_search_url ref) = Return response
        /\ status_code response <> 200%Z
        /\ luxior_try client_get BeautifulSoup ref
           = Return (error_record ref (lit "luxior")
                       (lit "Erreur HTTP " ++ str_of_int (status_code response))))
  \/ (exists response soup,
        client_get (luxior_search_url ref) = Return response
        /\ status_code response = 200%Z
        /\ BeautifulSoup (text response) = Return soup
        /\ ((find [lit "div"] (class_str (lit "product-item-info")) soup = None
             /\ luxior_try client_get BeautifulSoup ref
                = Return (error_record ref (lit "luxior") (lit "Produit non trouvé")))
            \/ (exists item,
                  find [lit "div"] (class_str (lit "product-item-info")) soup = Some item
                  /\ luxior_try client_get BeautifulSoup ref
                     = Return
                         {| reference := ref; fournisseur := lit "luxior";
                            prix := prix_of_text
                                      (option_map (fun e => strip (get_text e))
                                         (find [lit "span"] (class_str (lit "price")) item));
                            designation :=
                              Some (text_or (find [lit "a"]
                                               (class_str (lit "product-item-link")) item)
                                            (lit "N/A"));
                            disponibilite :=
                              Some (text_or (find [lit "div"] (class_str (lit "stock")) item)
                                            (lit "À vérifier"));
                            erreur := None |}))).
Proof.
  destruct (client_get (luxior_search_url ref)) as [response|e] eqn:Hg.
  - destruct (Z.eq_dec (status_code response) 200) as [Hs|Hs].
    + destruct (BeautifulSoup (text response)) as [soup|e] eqn:Hp.
      * right. right. exists response, soup. repeat (split; [first [assumption | reflexivity]|]).
        rewrite (luxior_parsed _ _ _ _ soup Hg Hs Hp).
        destruct (find [lit "div"] (class_str (lit "product-item-info")) soup)
          as [item|].
        -- right. exists item. now split.
        -- left. now split.
      * left. exists e. split.
        -- right. exists response. repeat split; first [assumption | reflexivity].
        -- exact (luxior_parser_raises _ _ _ _ _ Hg Hs Hp).
    + right. left. exists response. repeat (split; [first [assumption | reflexivity]|]).
      now apply luxior_http_error.
  - left. exists e. split; [now left|]. now apply luxior_request_raises.
Qed.

Lemma ami3f_try_cases client_get BeautifulSoup (ref : str) :
  (exists e,
     upstream_raises client_get BeautifulSoup (ami3f_search_url ref) e
     /\ ami3f_try client_get BeautifulSoup ref = Raise e)
  \/ (exists response,
        client_get (ami3f_search_url ref) = Return response
        /\ status_code response <> 200%Z
        /\ ami3f_try client_get BeautifulSoup ref
           = Return (error_record ref (lit "ami3f")
                       (lit "Erreur HTTP " ++ str_of_int (status_code response))))
  \/ (exists response soup,
        client_get (ami3f_search_url ref) = Return response
        /\ status_code response = 200%Z
        /\ BeautifulSoup (text response) = Return soup
        /\ ((ami3f_product_card soup = None
             /\ ami3f_try client_get BeautifulSoup ref
                = Return (error_record ref (lit "ami3f") (lit "Produit non trouvé")))
            \/ (exists card,
                  ami3f_product_card soup = Some card
                  /\ ami3f_try client_get BeautifulSoup ref
                     = Return
                         {| reference := ref; fournisseur := lit "ami3f";
                            prix := prix_of_text
                                      (option_map (fun e => strip (get_text e))
                                         (find [lit "span"; lit "div"]
                                            (class_re re_price) card));
                            designation :=
                              Some (text_or (find [lit "h2"; lit "h3"; lit "a"]
                                               (class_re re_product_title_or_name) card)
                                            (lit "N/A"));
                            disponibilite :=
                              Some (text_or (find [lit "span"; lit "div"]
                                               (class_re re_stock_or_availability) card)
                                            (lit "À vérifier"));
                            erreur := None |}))).
Proof.
  destruct (client_get (ami3f_search_url ref)) as [response|e] eqn:Hg.
  - destruct (Z.eq_dec (status_code response) 200) as [Hs|Hs].
    + destruct (BeautifulSoup (text response)) as [soup|e] eqn:Hp.
      * right. right. exists response, soup. repeat (split; [first [assumption | reflexivity]|]).
        rewrite (ami3f_parsed _ _ _ _ soup Hg Hs Hp).
        destruct (ami3f_product_card soup) as [card|].
        -- right. exists card. now split.
        -- left. now split.
      * left. exists e. split.
        -- right. exists response. repeat split; first [assumption | reflexivity].
        -- exact (ami3f_parser_raises _ _ _ _ _ Hg Hs Hp).
    + right. left. exists response. repeat (split; [first [assumption | reflexivity]|]).
      now apply ami3f_http_error.
  - left. exists e. split; [now left|]. now apply ami3f_request_raises.
Qed.

(** ** The texts of a returned record *)

Lemma stripped_ends (s : str) :
  stripped s ->
  (forall c t, s = c :: t -> isspace c = false)
  /\ (forall t c, s = t ++ [c] -> isspace c = false).
Proof.
  unfold stripped. intros H. split.
  - intros c t E. apply (strip_head s c t). congruence.
  - intros t c E. apply (strip_last s c t). congruence.
Qed.

Lemma text_or_stripped (e : option PageElement) (default : str) :
  stripped default -> stripped (text_or e default).
Proof.
  intros H. destruct e as [e|]; [|exact H]. apply strip_idempotent.
Qed.

Lemma luxior_texts_stripped client_get BeautifulSoup (ref : str) (r : ProduitResponse) :
  scrape_luxior client_get BeautifulSoup ref = Return r ->
  (forall d, designation r = Some d -> stripped d)
  /\ (forall a, disponibilite r = Some a -> stripped a).
Proof.
  unfold scrape_luxior. intros H.
  destruct (luxior_try_cases client_get BeautifulSoup ref)
    as [[e [_ Ht]] | [[response [_ [_ Ht]]]
        | [response [soup [_ [_ [_ [[_ Ht] | [item [_ Ht]]]]]]]]]];
    rewrite Ht in H.
  - destruct e; [| |discriminate H]; injection H as <-; split; discriminate.
  - injection H as <-. split; discriminate.
  - injection H as <-. split; discriminate.
  - injection H as <-. cbn [designation disponibilite].
    split; intros x Hx; injection Hx as <-; apply text_or_stripped;
      vm_compute; reflexivity.
Qed.

Lemma ami3f_texts_stripped client_get BeautifulSoup (ref : str) (r : ProduitResponse) :
  scrape_ami3f client_get BeautifulSoup ref = Return r ->
  (forall d, designation r = Some d -> stripped d)
  /\ (forall a, disponibilite r = Some a -> stripped a).
Proof.
  unfold scrape_ami3f. intros H.
  destruct (ami3f_try_cases client_get BeautifulSoup ref)
    as [[e [_ Ht]] | [[response [_ [_ Ht]]]
        | [response [soup [_ [_ [_ [[_ Ht] | [card [_ Ht]]]]]]]]]];
    rewrite Ht in H.
  - destruct e; [| |discriminate H]; injection H as <-; split; discriminate.
  - injection H as <-. split; discriminate.
  - injection H as <-. split; discriminate.
  - injection H as <-. cbn [designation disponibilite].
    split; intros x Hx; injection Hx as <-; apply text_or_stripped;
      vm_compute; reflexivity.
Qed.

(** X5: the designation and the availability of a record an adapter returns
    are stripped: stripping them again changes nothing, and neither begins nor
    ends with a whitespace character. *)
Theorem returned_texts_are_stripped :
  forall (client_get : str -> result Response)
         (BeautifulSoup : str -> result PageElement)
         (ref : str) (r : ProduitResponse),
  scrape_luxior client_get BeautifulSoup ref = Return r
  \/ scrape_ami3f client_get BeautifulSoup ref = Return r ->
  forall t, designation r = Some t \/ disponibilite r = Some t ->
  strip t = t
  /\ (forall c rest, t = c :: rest -> isspace c = false)
  /\ (forall rest c, t = rest ++ [c] -> isspace c = false).
Proof.
  intros client_get BeautifulSoup ref r Hr t Ht.
  assert (Hs : stripped t).
  { destruct Hr as [Hr|Hr].
    - destruct (luxior_texts_stripped _ _ _ _ Hr) as [Hd Ha].
      destruct Ht as [Ht|Ht]; [exact (Hd t Ht) | exact (Ha t Ht)].
    - destruct (ami3f_texts_stripped _ _ _ _ Hr) as [Hd Ha].
      destruct Ht as [Ht|Ht]; [exact (Hd t Ht) | exact (Ha t Ht)]. }
  split; [exact Hs | exact (stripped_ends t Hs)].
Qed.

(** X5 at a page whose link reads " Widget ". *)
Lemma returned_texts_are_stripped_witness :
  strip (lit "Widget") = lit "Widget".
Proof.
  refine (proj1 (returned_texts_are_stripped (responds 200 [])
                   (parses_to (luxior_page "product-item-link" "10")) (lit "REF")
                   {| reference := lit "REF"; fournisseur := lit "luxior";
                      prix := Some (10 # 1); designation := Some (lit "Widget");
                      disponibilite := Some (lit "En stock"); erreur := None |}
                   _ (lit "Widget") _)).
  - left. vm_compute. reflexivity.
  - left. reflexivity.
Defined.

(** X6: the defaults stand for an element that is not there, not for one
    that is empty: where the link or heading of the designation, or the element
    of the stock, is found and holds whitespace only, the record is returned
    with the empty string in that field, and with no error. *)
Theorem blank_element_gives_empty_text :
  forall (client_get : str -> result Response)
         (BeautifulSoup : str -> result PageElement)
         (ref body : str) (soup : PageElement),
  BeautifulSoup body = Return soup ->
  (forall item,
     client_get (luxior_search_url ref)
       = Return {| status_code := 200; text := body |} ->
     find [lit "div"] (class_str (lit "product-item-info")) soup = Some item ->
     exists r,
       scrape_luxior client_get BeautifulSoup ref = Return r
       /\ erreur r = None
       /\ (forall e,
             find [lit "a"] (class_str (lit "product-item-link")) item = Some e ->
             blank (get_text e) = true -> designation r = Some [])
       /\ (forall e,
             find [lit "div"] (class_str (lit "stock")) item = Some e ->
             blank (get_text e) = true -> disponibilite r = Some []))
  /\ (forall card,
        client_get (ami3f_search_url ref)
          = Return {| status_code := 200; text := body |} ->
        ami3f_product_card soup = Some card ->
        exists r,
          scrape_ami3f client_get BeautifulSoup ref = Return r
          /\ erreur r = None
          /\ (forall e,
                find [lit "h2"; lit "h3"; lit "a"]
                  (class_re re_product_title_or_name) card = Some e ->
                blank (get_text e) = true -> designation r = Some [])
          /\ (forall e,
                find [lit "span"; lit "div"]
                  (class_re re_stock_or_availability) card = Some e ->
                blank (get_text e) = true -> disponibilite r = Some [])).
Proof.
  intros client_get BeautifulSoup ref body soup Hp. split.
  - intros item Hg Hitem. eexists. split; [|split; [|split]].
    + apply scrape_luxior_returns.
      rewrite (luxior_parsed _ _ _ _ soup Hg eq_refl Hp), Hitem. reflexivity.
    + reflexivity.
    + intros e He Hb. cbn [designation]. rewrite He. unfold text_or.
      apply strip_blank in Hb. now rewrite Hb.
    + intros e He Hb. cbn [disponibilite]. rewrite He. unfold text_or.
      apply strip_blank in Hb. now rewrite Hb.
  - intros card Hg Hcard. eexists. split; [|split; [|split]].
    + apply scrape_ami3f_returns.
      rewrite (ami3f_parsed _ _ _ _ soup Hg eq_refl Hp), Hcard. reflexivity.
    + reflexivity.
    + intros e He Hb. cbn [designation]. rewrite He. unfold text_or.
      apply strip_blank in Hb. now rewrite Hb.
    + intros e He Hb. cbn [disponibilite]. rewrite He. unfold text_or.
      apply strip_blank in Hb. now rewrite Hb.
Qed.

(** X6 at a page whose link and stock hold spaces only. *)
Lemma blank_element_gives_empty_text_witness :
  exists r,
    scrape_luxior (responds 200 []) (parses_to luxior_page_blank) (lit "REF") = Return r
    /\ designation r = Some [] /\ disponibilite r = Some [].
Proof.
  destruct (blank_element_gives_empty_text (responds 200 [])
              (parses_to luxior_page_blank) (lit "REF") [] luxior_page_blank eq_refl)
    as [Hlux _].
  destruct (Hlux (Tag (lit "div") (Some [lit "product-item-info"])
                    [element "a" "product-item-link" "   ";
                     element "div" "stock" " "]) eq_refl)
    as [r [Hr [_ [Hd Ha]]]].
  - vm_compute. reflexivity.
  - exists r. split; [exact Hr|]. split.
    + apply (Hd (element "a" "product-item-link" "   ")); vm_compute; reflexivity.
    + apply (Ha (element "div" "stock" " ")); vm_compute; reflexivity.
Defined.

(** ** What the adapters read of a page *)

(** X7: of a page the adapters read the first product container and nothing
    else: two pages with the same first container give the same record,
    whatever else they hold. *)
Theorem first_container_decides :
  forall (client_get : str -> result Response)
         (BeautifulSoup BeautifulSoup' : str -> result PageElement)
         (ref body : str) (soup soup' : PageElement),
  BeautifulSoup body = Return soup ->
  BeautifulSoup' body = Return soup' ->
  (client_get (luxior_search_url ref)
     = Return {| status_code := 200; text := body |} ->
   find [lit "div"] (class_str (lit "product-item-info")) soup
   = find [lit "div"] (class_str (lit "product-item-info")) soup' ->
   scrape_luxior client_get BeautifulSoup ref
   = scrape_luxior client_get BeautifulSoup' ref)
  /\ (client_get (ami3f_search_url ref)
        = Return {| status_code := 200; text := body |} ->
      ami3f_product_card soup = ami3f_product_card soup' ->
      scrape_ami3f client_get BeautifulSoup ref
      = scrape_ami3f client_get BeautifulSoup' ref).
Proof.
  intros client_get BeautifulSoup BeautifulSoup' ref body soup soup' Hp Hp'.
  split; intros Hg Hsame.
  - unfold scrape_luxior.
    rewrite (luxior_parsed client_get BeautifulSoup _ _ soup Hg eq_refl Hp).
    rewrite (luxior_parsed client_get BeautifulSoup' _ _ soup' Hg eq_refl Hp').
    now rewrite Hsame.
  - unfold scrape_ami3f.
    rewrite (ami3f_parsed client_get BeautifulSoup _ _ soup Hg eq_refl Hp).
    rewrite (ami3f_parsed client_get BeautifulSoup' _ _ soup' Hg eq_refl Hp').
    now rewrite Hsame.
Qed.

(** X7 at a page with a second product after the first. *)
Lemma first_container_decides_witness :
  scrape_ami3f (responds 200 []) (parses_to (ami3f_page "name" "10")) (lit "REF")
  = scrape_ami3f (responds 200 [])
      (parses_to
         (document
            [Tag (lit "div") (Some [lit "product-card"])
               [element "h2" "name" " Widget "; element "span" "price" "10"];
             Tag (lit "div") (Some [lit "product-card"])
               [element "h2" "name" "Other"; element "span" "price" "99"]]))
      (lit "REF").
Proof.
  refine (proj2 (first_container_decides (responds 200 []) _ _ (lit "REF") []
                   _ _ eq_refl eq_refl) eq_refl _).
  vm_compute. reflexivity.
Defined.

(** ** What the adapters let through *)

(** X8: an adapter raises exactly the exceptions of the outside that are no
    [Exception]: a cancellation of the request is not turned into an error
    record. *)
Theorem adapters_raise_iff :
  forall (client_get : str -> result Response)
         (BeautifulSoup : str -> result PageElement)
         (ref : str) (e : exception),
  (scrape_luxior client_get BeautifulSoup ref = Raise e
   <-> upstream_raises client_get BeautifulSoup (luxior_search_url ref) e
       /\ is_Exception e = false)
  /\ (scrape_ami3f client_get BeautifulSoup ref = Raise e
      <-> upstream_raises client_get BeautifulSoup (ami3f_search_url ref) e
          /\ is_Exception e = false).
Proof.
  intros client_get BeautifulSoup ref e. split; split.
  - intros H.
    pose proof (scrape_luxior_outcome client_get BeautifulSoup ref) as Ho.
    rewrite H in Ho. tauto.
  - intros [Hup Hc]. apply luxior_try_raises in Hup.
    unfold scrape_luxior. rewrite Hup.
    destruct e; [discriminate Hc | discriminate Hc | reflexivity].
  - intros H.
    pose proof (scrape_ami3f_outcome client_get BeautifulSoup ref) as Ho.
    rewrite H in Ho. tauto.
  - intros [Hup Hc]. apply ami3f_try_raises in Hup.
    unfold scrape_ami3f. rewrite Hup.
    destruct e; [discriminate Hc | discriminate Hc | reflexivity].
Qed.

(** X8 at a request that is cancelled. *)
Lemma adapters_raise_iff_witness :
  scrape_luxior cancelled (parses_to (document [])) (lit "REF")
  = Raise (BaseExceptionOnly (lit "CancelledError")).
Proof.
  apply (proj1 (adapters_raise_iff cancelled (parses_to (document [])) (lit "REF")
                  (BaseExceptionOnly (lit "CancelledError")))).
  split; [left|]; reflexivity.
Defined.

(** ** The test endpoints and the dispatcher *)

Lemma adapters_return client_get BeautifulSoup (ref : str) :
  (forall url e, upstream_raises client_get BeautifulSoup url e ->
                 is_Exception e = true) ->
  (exists r, scrape_luxior client_get BeautifulSoup ref = Return r
             /\ reference r = ref /\ fournisseur r = lit "luxior")
  /\ (exists r, scrape_ami3f client_get BeautifulSoup ref = Return r
                /\ reference r = ref /\ fournisseur r = lit "ami3f").
Proof.
  intros Hexc. split.
  - pose proof (scrape_luxior_outcome client_get BeautifulSoup ref) as Ho.
    destruct (scrape_luxior client_get BeautifulSoup ref) as [r|e].
    + exists r. split; [reflexivity | exact (adapter_record_echo _ _ _ Ho)].
    + destruct Ho as [Hc Hup]. rewrite (Hexc _ _ Hup) in Hc. discriminate Hc.
  - pose proof (scrape_ami3f_outcome client_get BeautifulSoup ref) as Ho.
    destruct (scrape_ami3f client_get BeautifulSoup ref) as [r|e].
    + exists r. split; [reflexivity | exact (adapter_record_echo _ _ _ Ho)].
    + destruct Ho as [Hc Hup]. rewrite (Hexc _ _ Hup) in Hc. discriminate Hc.
Qed.

(** X9: the test endpoints do not validate the reference: when the
    failures of the outside are [Exception]s they answer every reference, a
    blank one too, with a record for that reference, where [recherche_produit]
    rejects a blank reference; for a reference that is not blank
    [recherche_produit] answers as the test endpoint of the supplier. *)
Theorem test_endpoints_skip_validation :
  forall (client_get : str -> result Response)
         (BeautifulSoup : str -> result PageElement)
         (unicode_lower : str -> str) (ref : str),
  (forall url e, upstream_raises client_get BeautifulSoup url e ->
                 is_Exception e = true) ->
  (exists r, test_luxior client_get BeautifulSoup ref = Serialized r
             /\ reference r = ref /\ fournisseur r = lit "luxior")
  /\ (exists r, test_ami3f client_get BeautifulSoup ref = Serialized r
                /\ reference r = ref /\ fournisseur r = lit "ami3f")
  /\ (forall fourn,
        blank ref = true ->
        exists detail,
          recherche_produit client_get BeautifulSoup unicode_lower
            {| produit_reference := ref; produit_fournisseur := fourn |}
          = HTTPException 400 detail)
  /\ (forall fourn,
        blank ref = false -> lower unicode_lower fourn = lit "luxior" ->
        recherche_produit client_get BeautifulSoup unicode_lower
          {| produit_reference := ref; produit_fournisseur := fourn |}
        = test_luxior client_get BeautifulSoup ref)
  /\ (forall fourn,
        blank ref = false -> lower unicode_lower fourn = lit "ami3f" ->
        recherche_produit client_get BeautifulSoup unicode_lower
          {| produit_reference := ref; produit_fournisseur := fourn |}
        = test_ami3f client_get BeautifulSoup ref).
Proof.
  intros client_get BeautifulSoup unicode_lower ref Hexc.
  destruct (adapters_return client_get BeautifulSoup ref Hexc)
    as [[rl [Hl Hel]] [ra [Ha Hea]]].
  split; [|split; [|split; [|split]]].
  - exists rl. unfold test_luxior. rewrite Hl. now split.
  - exists ra. unfold test_ami3f. rewrite Ha. now split.
  - intros fourn Hb. unfold recherche_produit.
    cbn [produit_reference produit_fournisseur].
    rewrite reference_check, Hb. eexists. reflexivity.
  - intros fourn Hb Hf. unfold recherche_produit, test_luxior.
    cbn [produit_reference produit_fournisseur].
    rewrite reference_check, Hb, Hf. reflexivity.
  - intros fourn Hb Hf. unfold recherche_produit, test_ami3f.
    cbn [produit_reference produit_fournisseur].
    rewrite reference_check, Hb, Hf. reflexivity.
Qed.

(** X9 at the reference " " when the supplier answers 404. *)
Lemma test_endpoints_skip_validation_witness :
  exists r,
    test_luxior (responds 404 []) (parses_to (document [])) (lit " ") = Serialized r
    /\ reference r = lit " " /\ fournisseur r = lit "luxior".
Proof.
  assert (Hexc : forall url e,
            upstream_raises (responds 404 []) (parses_to (document [])) url e ->
            is_Exception e = true).
  { intros url e [H | [response [_ [_ H]]]]; discriminate H. }
  exact (proj1 (test_endpoints_skip_validation (responds 404 [])
                  (parses_to (document [])) sample_lower (lit " ") Hexc)).
Defined.

(** ** The health report *)

(** X10: a supplier identifier is reported as configured unless its variable
    is set to the empty string, since an unset variable takes the default of
    the code; the key of Odoo, whose default is empty, is reported as
    configured exactly when its variable is set to a string that is not
    empty. *)
Theorem health_flags :
  forall environ : str -> option str,
  (luxior_configured (health_check (configuration environ)) = false
   <-> environ (lit "LUXIOR_ID") = Some [])
  /\ (ami3f_configured (health_check (configuration environ)) = false
      <-> environ (lit "AMI3F_ID") = Some [])
  /\ (odoo_configured (health_check (configuration environ)) = true
      <-> exists value, environ (lit "ODOO_API_KEY") = Some value /\ value <> [])
  /\ health_status (health_check (configuration environ)) = lit "ok".
Proof.
  intros environ. unfold health_check, configuration, getenv.
  cbn [luxior_configured ami3f_configured odoo_configured health_status
       LUXIOR_ID AMI3F_ID ODOO_API_KEY].
  split; [|split; [|split; [|reflexivity]]].
  - destruct (environ (lit "LUXIOR_ID")) as [[|c v]|]; simpl;
      split; intros H; try reflexivity; try discriminate H;
      vm_compute in H; discriminate H.
  - destruct (environ (lit "AMI3F_ID")) as [[|c v]|]; simpl;
      split; intros H; try reflexivity; try discriminate H;
      vm_compute in H; discriminate H.
  - destruct (environ (lit "ODOO_API_KEY")) as [[|c v]|]; simpl; split.
    + intros H. discriminate H.
    + intros [value [H Hv]]. injection H as <-. now contradiction Hv.
    + intros _. exists (c :: v). split; [reflexivity | discriminate].
    + reflexivity.
    + intros H. discriminate H.
    + intros [value [H _]]. discriminate H.
Qed.

(** ** What an error message tells *)

(** Two messages that differ within their first seven characters. *)
Ltac absurd_message :=
  intros;
  match goal with
  | H : @eq (option str) _ _ |- _ =>
      first [ discriminate H
            | injection H as H; apply (f_equal (firstn 7)) in H;
              vm_compute in H; discriminate H ]
  end.

(** X11: the error of a record [scrape_luxior] returns tells what happened:
    no error, a container was found in the page of a 200 response; "Produit
    non trouvé", the page of a 200 response was parsed and has no container;
    "Erreur HTTP " and a number, that number is the status of the response and
    is not 200; the timeout message, the outside raised a [TimeoutException];
    "Erreur: " and a text, the outside raised another [Exception] with that
    text. *)
Theorem luxior_error_tells_cause :
  forall (client_get : str -> result Response)
         (BeautifulSoup : str -> result PageElement)
         (ref : str) (r : ProduitResponse),
  scrape_luxior client_get BeautifulSoup ref = Return r ->
  (erreur r = None ->
   exists response soup item,
     client_get (luxior_search_url ref) = Return response
     /\ status_code response = 200%Z
     /\ BeautifulSoup (text response) = Return soup
     /\ find [lit "div"] (class_str (lit "product-item-info")) soup = Some item)
  /\ (erreur r = Some (lit "Produit non trouvé") ->
      exists response soup,
        client_get (luxior_search_url ref) = Return response
        /\ status_code response = 200%Z
        /\ BeautifulSoup (text response) = Return soup
        /\ find [lit "div"] (class_str (lit "product-item-info")) soup = None)
  /\ (forall number,
        erreur r = Some (lit "Erreur HTTP " ++ number) ->
        exists response,
          client_get (luxior_search_url ref) = Return response
          /\ status_code response <> 200%Z
          /\ number = str_of_int (status_code response))
  /\ (erreur r = Some (lit "Timeout - Le serveur Luxior ne répond pas") ->
      exists msg,
        upstream_raises client_get BeautifulSoup (luxior_search_url ref)
          (TimeoutException msg))
  /\ (forall msg,
        erreur r = Some (lit "Erreur: " ++ msg) ->
        upstream_raises client_get BeautifulSoup (luxior_search_url ref)
          (OtherException msg)).
Proof.
  intros client_get BeautifulSoup ref r H. unfold scrape_luxior in H.
  destruct (luxior_try_cases client_get BeautifulSoup ref)
    as [[e [Hup Ht]] | [[response [Hg [Hs Ht]]]
        | [response [soup [Hg [Hs [Hp [[Hn Ht] | [item [Hi Ht]]]]]]]]]];
    rewrite Ht in H.
  - destruct e as [m|m|m]; [| |discriminate H]; injection H as <-;
      cbn [erreur]; (split; [|split; [|split; [|split]]]); try absurd_message.
    + intros _. now exists m.
    + intros msg H. injection H as H. try apply app_inv_head in H. now subst msg.
  - injection H as <-. unfold error_record. cbn [erreur].
    (split; [|split; [|split; [|split]]]); try absurd_message.
    intros number H. injection H as H. try apply app_inv_head in H.
    exists response. repeat split; auto.
  - injection H as <-. unfold error_record. cbn [erreur].
    (split; [|split; [|split; [|split]]]); try absurd_message.
    intros _. exists response, soup. repeat split; auto.
  - injection H as <-. cbn [erreur].
    (split; [|split; [|split; [|split]]]); try absurd_message.
    intros _. exists response, soup, item. repeat split; auto.
Qed.

(** X11 at a response with status 503. *)
Lemma luxior_error_tells_cause_witness :
  exists response,
    responds 503 [] (luxior_search_url (lit "REF")) = Return response
    /\ status_code response <> 200%Z
    /\ lit "503" = str_of_int (status_code response).
Proof.
  refine (proj1 (proj2 (proj2
            (luxior_error_tells_cause (responds 503 []) (parses_to (document []))
               (lit "REF")
               (error_record (lit "REF") (lit "luxior") (lit "Erreur HTTP 503")) _)))
            (lit "503") _).
  - vm_compute. reflexivity.
  - vm_compute. reflexivity.
Defined.

(** X12: the error of a record [scrape_ami3f] returns tells what happened,
    as for [scrape_luxior]: no error, one of the two containers was found;
    "Produit non trouvé", the page of a 200 response was parsed and has
    neither; "Erreur HTTP " and a number, that number is the status of the
    response and is not 200; the timeout message, the outside raised a
    [TimeoutException]; "Erreur: " and a text, the outside raised another
    [Exception] with that text. *)
Theorem ami3f_error_tells_cause :
  forall (client_get : str -> result Response)
         (BeautifulSoup : str -> result PageElement)
         (ref : str) (r : ProduitResponse),
  scrape_ami3f client_get BeautifulSoup ref = Return r ->
  (erreur r = None ->
   exists response soup card,
     client_get (ami3f_search_url ref) = Return response
     /\ status_code response = 200%Z
     /\ BeautifulSoup (text response) = Return soup
     /\ ami3f_product_card soup = Some card)
  /\ (erreur r = Some (lit "Produit non trouvé") ->
      exists response soup,
        client_get (ami3f_search_url ref) = Return response
        /\ status_code response = 200%Z
        /\ BeautifulSoup (text response) = Return soup
        /\ find [lit "div"] (class_str (lit "product-card")) soup = None
        /\ find [lit "article"] (class_str (lit "product")) soup = None)
  /\ (forall number,
        erreur r = Some (lit "Erreur HTTP " ++ number) ->
        exists response,
          client_get (ami3f_search_url ref) = Return response
          /\ status_code response <> 200%Z
          /\ number = str_of_int (status_code response))
  /\ (erreur r = Some (lit "Timeout - Le serveur AMI 3F ne répond pas") ->
      exists msg,
        upstream_raises client_get BeautifulSoup (ami3f_search_url ref)
          (TimeoutException msg))
  /\ (forall msg,
        erreur r = Some (lit "Erreur: " ++ msg) ->
        upstream_raises client_get BeautifulSoup (ami3f_search_url ref)
          (OtherException msg)).
Proof.
  intros client_get BeautifulSoup ref r H. unfold scrape_ami3f in H.
  destruct (ami3f_try_cases client_get BeautifulSoup ref)
    as [[e [Hup Ht]] | [[response [Hg [Hs Ht]]]
        | [response [soup [Hg [Hs [Hp [[Hn Ht] | [card [Hi Ht]]]]]]]]]];
    rewrite Ht in H.
  - destruct e as [m|m|m]; [| |discriminate H]; injection H as <-;
      cbn [erreur]; (split; [|split; [|split; [|split]]]); try absurd_message.
    + intros _. now exists m.
    + intros msg H. injection H as H. try apply app_inv_head in H. now subst msg.
  - injection H as <-. unfold error_record. cbn [erreur].
    (split; [|split; [|split; [|split]]]); try absurd_message.
    intros number H. injection H as H. try apply app_inv_head in H.
    exists response. repeat split; auto.
  - injection H as <-. unfold error_record. cbn [erreur].
    (split; [|split; [|split; [|split]]]); try absurd_message.
    intros _. exists response, soup. repeat (split; [assumption|]).
    unfold ami3f_product_card in Hn.
    destruct (find [lit "div"] (class_str (lit "product-card")) soup);
      [discriminate Hn | now split].
  - injection H as <-. cbn [erreur].
    (split; [|split; [|split; [|split]]]); try absurd_message.
    intros _. exists response, soup, card. repeat split; auto.
Qed.

(** X12 at an exception of the request. *)
Lemma ami3f_error_tells_cause_witness :
  upstream_raises (fails_with "boom") (parses_to (document []))
    (ami3f_search_url (lit "REF")) (OtherException (lit "boom")).
Proof.
  refine (proj2 (proj2 (proj2 (proj2
            (ami3f_error_tells_cause (fails_with "boom") (parses_to (document []))
               (lit "REF")
               (error_record (lit "REF") (lit "ami3f") (lit "Erreur: boom")) _))))
            (lit "boom") _).
  - vm_compute. reflexivity.
  - vm_compute. reflexivity.
Defined.

(** ** The class test of the selectors *)

Lemma join_space_contains (values : list str) (v : str) :
  In v values -> exists a b, join_space values = a ++ v ++ b.
Proof.
  induction values as [|x rest IH]; intros H; [destruct H|].
  destruct H as [->|H].
  - destruct rest as [|y rest'].
    + exists [], []. simpl. now rewrite app_nil_r.
    + exists [], (32 :: join_space (y :: rest')). reflexivity.
  - destruct rest as [|y rest']; [destruct H|].
    destruct (IH H) as [a [b Hj]].
    exists (x ++ 32 :: a), b. cbn [join_space]. cbn [join_space] in Hj.
    rewrite Hj. now rewrite <- app_assoc.
Qed.

Lemma search_word_in_context (w : str) : found_in_context (search_word w).
Proof.
  intros a v b H. apply search_word_spec in H as [x [y ->]].
  apply search_word_spec. exists (a ++ x), (y ++ b).
  now rewrite <- !app_assoc.
Qed.

Lemma search_dotstar_in_context (p q : str) :
  ~ In newline q -> found_in_context (search_dotstar p q).
Proof.
  intros Hq a v b H. apply (search_dotstar_spec p q v Hq) in H as [x [m [y [-> Hm]]]].
  apply (search_dotstar_spec p q _ Hq). exists (a ++ x), m, (y ++ b).
  split; [|exact Hm]. now rewrite <- !app_assoc.
Qed.

Lemma orb_in_context (f g : str -> bool) :
  found_in_context f -> found_in_context g ->
  found_in_context (fun s => f s || g s).
Proof.
  intros Hf Hg a v b H. apply orb_true_iff in H as [H|H]; apply orb_true_iff.
  - left. now apply Hf.
  - right. now apply Hg.
Qed.

(** For such a pattern the values of the class need not be tried one by
    one: it matches when it is found in the values joined by spaces. *)
Lemma class_re_joined (search : str -> bool) (values : list str) :
  found_in_context search ->
  class_matches (class_re search) (Some values) = search (join_space values).
Proof.
  intros Hctx. unfold class_matches, match_against.
  destruct (existsb search values) eqn:E; [|reflexivity].
  apply existsb_exists in E as [v [Hin Hv]].
  destruct (join_space_contains values v Hin) as [a [b ->]].
  symmetry. now apply Hctx.
Qed.

Lemma name_in_names (name : str) (names : list str) :
  existsb (str_eqb name) names = true <-> In name names.
Proof.
  rewrite existsb_exists. split.
  - intros [x [Hin Hx]]. apply str_eqb_eq in Hx. now subst x.
  - intros Hin. exists name. split; [exact Hin | now apply str_eqb_eq].
Qed.

(** X13: the three selectors of [scrape_ami3f] test the class attribute as
    a whole: an element is taken for its name and for the pattern being found
    in its classes joined by spaces, so "price" in any class makes a [span] or
    [div] the price element, and "product" and "title" may stand in two
    classes. An element with no class attribute is never taken. *)
Theorem ami3f_selectors :
  forall (name : str) (values : list str) (contents : list PageElement),
  (tag_matches [lit "h2"; lit "h3"; lit "a"] (class_re re_product_title_or_name)
     (Tag name (Some values) contents) = true
   <-> In name [lit "h2"; lit "h3"; lit "a"]
       /\ ((exists x y, join_space values = x ++ lit "name" ++ y)
           \/ (exists x m y,
                 join_space values = x ++ lit "product" ++ m ++ lit "title" ++ y
                 /\ ~ In newline m)))
  /\ (tag_matches [lit "span"; lit "div"] (class_re re_price)
        (Tag name (Some values) contents) = true
      <-> In name [lit "span"; lit "div"]
          /\ exists x y, join_space values = x ++ lit "price" ++ y)
  /\ (tag_matches [lit "span"; lit "div"] (class_re re_stock_or_availability)
        (Tag name (Some values) contents) = true
      <-> In name [lit "span"; lit "div"]
          /\ ((exists x y, join_space values = x ++ lit "stock" ++ y)
              \/ (exists x y, join_space values = x ++ lit "availability" ++ y)))
  /\ (forall names f, tag_matches names f (Tag name None contents) = false).
Proof.
  intros name values contents.
  assert (Hnl : ~ In newline (lit "title")) by (vm_compute; intuition discriminate).
  split; [|split; [|split]].
  - unfold tag_matches. rewrite andb_true_iff, name_in_names, class_re_joined.
    + now rewrite re_product_title_or_name_spec.
    + apply orb_in_context;
        [now apply search_dotstar_in_context | apply search_word_in_context].
  - unfold tag_matches. rewrite andb_true_iff, name_in_names, class_re_joined.
    + unfold re_price. now rewrite search_word_spec.
    + apply search_word_in_context.
  - unfold tag_matches. rewrite andb_true_iff, name_in_names, class_re_joined.
    + unfold re_stock_or_availability.
      now rewrite orb_true_iff, !search_word_spec.
    + apply orb_in_context; apply search_word_in_context.
  - intros names f. unfold tag_matches. simpl. apply andb_false_r.
Qed.

(** ** One request for one lookup *)

Lemma scrape_luxior_one_request get get' BeautifulSoup (ref : str) :
  get (luxior_search_url ref) = get' (luxior_search_url ref) ->
  scrape_luxior get BeautifulSoup ref = scrape_luxior get' BeautifulSoup ref.
Proof. intros H. unfold scrape_luxior, luxior_try. now rewrite H. Qed.

Lemma scrape_ami3f_one_request get get' BeautifulSoup (ref : str) :
  get (ami3f_search_url ref) = get' (ami3f_search_url ref) ->
  scrape_ami3f get BeautifulSoup ref = scrape_ami3f get' BeautifulSoup ref.
Proof. intros H. unfold scrape_ami3f, ami3f_try. now rewrite H. Qed.

(** X14: the answer of [recherche_produit] rests on one request at most:
    for the supplier "luxior" on what the search URL of Luxior gives, for
    "ami3f" on what the search URL of AMI 3F gives, whatever any other URL
    gives; a request that is rejected rests on nothing of the outside. *)
Theorem lookup_asks_one_supplier :
  forall (get get' : str -> result Response)
         (BeautifulSoup BeautifulSoup' : str -> result PageElement)
         (unicode_lower : str -> str) (produit : ProduitRequest),
  let ref := produit_reference produit in
  let supplier := lower unicode_lower (produit_fournisseur produit) in
  (supplier = lit "luxior" ->
   get (luxior_search_url ref) = get' (luxior_search_url ref) ->
   recherche_produit get BeautifulSoup unicode_lower produit
   = recherche_produit get' BeautifulSoup unicode_lower produit)
  /\ (supplier = lit "ami3f" ->
      get (ami3f_search_url ref) = get' (ami3f_search_url ref) ->
      recherche_produit get BeautifulSoup unicode_lower produit
      = recherche_produit get' BeautifulSoup unicode_lower produit)
  /\ (blank ref = true \/ (supplier <> lit "luxior" /\ supplier <> lit "ami3f") ->
      recherche_produit get BeautifulSoup unicode_lower produit
      = recherche_produit get' BeautifulSoup' unicode_lower produit).
Proof.
  intros get get' BeautifulSoup BeautifulSoup' unicode_lower produit ref supplier.
  unfold recherche_produit. fold ref. fold supplier. rewrite reference_check.
  split; [|split].
  - intros Hs Hg. destruct (blank ref); [reflexivity|].
    rewrite Hs. cbn [str_eqb]. rewrite (proj2 (str_eqb_eq _ _) eq_refl).
    now rewrite (scrape_luxior_one_request get get' BeautifulSoup ref Hg).
  - intros Hs Hg. destruct (blank ref); [reflexivity|].
    rewrite Hs. destruct (str_eqb (lit "ami3f") (lit "luxior")) eqn:E;
      [vm_compute in E; discriminate E|].
    rewrite (proj2 (str_eqb_eq _ _) eq_refl).
    now rewrite (scrape_ami3f_one_request get get' BeautifulSoup ref Hg).
  - intros [Hb | [Hl Ha]].
    + now rewrite Hb.
    + destruct (blank ref); [reflexivity|].
      apply str_eqb_neq in Hl. apply str_eqb_neq in Ha. now rewrite Hl, Ha.
Qed.

(** X14 at a request for Luxior while the site of AMI 3F changes. *)
Lemma lookup_asks_one_supplier_witness :
  recherche_produit (responds 404 []) (parses_to (document [])) sample_lower
    {| produit_reference := lit "REF"; produit_fournisseur := lit "Luxior" |}
  = recherche_produit
      (fun url => if str_eqb url (luxior_search_url (lit "REF"))
                  then responds 404 [] url else times_out url)
      (parses_to (document [])) sample_lower
      {| produit_reference := lit "REF"; produit_fournisseur := lit "Luxior" |}.
Proof.
  refine (proj1 (lookup_asks_one_supplier (responds 404 []) _
                   (parses_to (document [])) (parses_to (document []))
                   sample_lower
                   {| produit_reference := lit "REF";
                      produit_fournisseur := lit "Luxior" |}) _ _);
    vm_compute; reflexivity.
Defined.
